(** * Committee registry and connection driver of the tbft node

    A shallow embedding of [consensus/tbft/node.go]: the per-committee
    [service] (node table, [putNodes], [updateNodes], [connTo], [start],
    [stop]) and the process-wide [Node] registry ([PutCommittee],
    [PutNodes], [Notify], [UpdateCommittee], [GetCommitteeStatus]).

    Conventions of the embedding.
    - A Go pointer that the code tests against [nil], or that is [nil] at
      some point of the code, is an [option]; reading a field through a
      [nil] pointer is the outcome [Panic].
    - A Go [error] is an [option string]: [None] is [nil].
    - A Go map is a [gmap]; ranging over a map visits its keys in an order
      the runtime chooses, so a loop over a map takes the order as an
      argument and theorems quantify over every permutation of the keys.
    - Collaborators that live in other packages (switch, event bus, address
      book, health manager) are represented by the history of the calls this
      file makes on them; what a call returns is a function of that history,
      supplied by the classes below.
    - [log] calls are not represented, except that the fields read to build
      their arguments are read.
    - Calls that only hand one collaborator a reference to another
      ([SetHealthMgr], [SetEventBus], the construction of the consensus
      reactor) are not represented; the calls on the switch all are.
    - Locks are not represented: every function is a step that runs alone.
      A goroutine that sends on the update channel is the send itself. *)

From Stdlib.Strings Require Import Byte.
From stdpp Require Import gmap strings list fin_maps pretty.

Open Scope Z_scope.

(** ** encoding/hex *)

Module Hex.

Definition hextable : list Ascii.ascii := String.list_ascii_of_string "0123456789abcdef".

Definition hexdigit (n : N) : Ascii.ascii := nth (N.to_nat n) hextable Ascii.zero.

(** [hex.EncodeToString]: two lower-case digits per byte, high nibble first. *)
Fixpoint EncodeToString (src : list byte) : string :=
  match src with
  | [] => EmptyString
  | v :: rest =>
      String (hexdigit (N.shiftr (Byte.to_N v) 4))
        (String (hexdigit (N.land (Byte.to_N v) 15)) (EncodeToString rest))
  end.

(** [fromHexChar]: digits, [a]-[f] and [A]-[F]. *)
Definition fromHexChar (c : Ascii.ascii) : option N :=
  let n := Ascii.N_of_ascii c in
  if (48 <=? n)%N && (n <=? 57)%N then Some (n - 48)%N
  else if (97 <=? n)%N && (n <=? 102)%N then Some (n - 97 + 10)%N
  else if (65 <=? n)%N && (n <=? 70)%N then Some (n - 65 + 10)%N
  else None.

Definition byte_of_nibbles (a b : N) : option byte :=
  Byte.of_N (N.lor (N.shiftl a 4) b).

(** [hex.DecodeString]: [None] stands for a non-nil [err] (odd length or a
    character that is no hex digit); the bytes returned next to an error
    are never read by this file. *)
Fixpoint DecodeString (s : string) : option (list byte) :=
  match s with
  | EmptyString => Some []
  | String _ EmptyString => None
  | String c1 (String c2 rest) =>
      match fromHexChar c1, fromHexChar c2 with
      | Some a, Some b =>
          match byte_of_nibbles a b, DecodeString rest with
          | Some v, Some tl => Some (v :: tl)
          | _, _ => None
          end
      | _, _ => None
      end
  end.

End Hex.

(** ** Outcomes, errors and integers *)

(** The ways a call of this file can abort the goroutine that runs it. *)
Inductive panic : Type :=
  | NilNodeInfo        (* a field read through a nil [*nodeInfo] *)
  | NilConsensusState  (* a field read through a nil [*ConsensusState] *)
  | NilStateAgent      (* a field or method of a nil [*StateAgentImpl] *)
  | NilBigInt          (* a method of a nil [*big.Int] *)
  | PanicZero.         (* [panic(0)] *)

Inductive outcome (A : Type) : Type :=
  | Done (a : A)
  | Panic (p : panic).
Arguments Done {A} a.
Arguments Panic {A} p.

#[global] Instance outcome_ret : MRet outcome := @Done.
#[global] Instance outcome_bind : MBind outcome := λ A B f m,
  match m with
  | Done a => f a
  | Panic p => Panic p
  end.

(** Reading through a pointer. *)
Definition deref {A} (p : panic) (ptr : option A) : outcome A :=
  match ptr with
  | Some a => Done a
  | None => Panic p
  end.

(** A Go [error]; [None] is [nil]. *)
Definition error : Type := option string.

Definition errors_New (msg : string) : error := Some msg.

(** [big.Int.Uint64]: the low 64 bits of the absolute value. *)
Definition Uint64 (x : Z) : Z := Z.abs x mod 2 ^ 64.

(** [uint64] addition. *)
Definition add64 (a b : Z) : Z := (a + b) mod 2 ^ 64.

(** [big.Int.String]. *)
Definition big_String (x : Z) : string := pretty x.

(** [p2p.ID] is a string type. *)
Abbreviation p2p_ID := string.

(** ** Collaborators *)

(** [crypto/ecdsa], [go-ethereum/crypto] and [tbft/crypto]. *)
Class Crypto : Type := {
  PublicKey : Type;
  PrivateKey : Type;
  (** [crypto.UnmarshalPubkey]; [None] is a non-nil [err] *)
  UnmarshalPubkey : list byte → option PublicKey;
  FromECDSAPub : PublicKey → list byte;
  (** [crypto.PubkeyToAddress], a [common.Address] as its bytes *)
  PubkeyToAddress : PublicKey → list byte;
  (** [tcrypto.PubKeyTrue(pk).Address()] *)
  PubKeyTrue_Address : PublicKey → list byte;
  (** [a.Equals(b)] on [tcrypto.PubKeyTrue] *)
  PubKeyTrue_Equals : PublicKey → PublicKey → bool;
  (** [tcrypto.PrivKeyTrue(priv).PubKey()] *)
  PrivKeyTrue_PubKey : PrivateKey → PublicKey;
}.

(** [core/types]: the committee descriptor and the endpoint announcement. *)
Inductive MemberFlag : Type := StateUsedFlag | StateUnusedFlag | StateOtherFlag.

Module CommitteeMember.
Record t `{Crypto} : Type := Build {
  Publickey : PublicKey;
  Flag : MemberFlag;
}.
Arguments Build {_} _ _.
End CommitteeMember.

Module CommitteeNode.
Record t : Type := Build {
  IP : string;
  Port : Z;
  Port2 : Z;
  Publickey : list byte;
}.
End CommitteeNode.

Module CommitteeInfo.
Record t `{Crypto} : Type := Build {
  Id : option Z;            (* [*big.Int], tested against nil *)
  StartHeight : Z;
  Members : list CommitteeMember.t;
  BackMembers : list CommitteeMember.t;
}.
Arguments Build {_} _ _ _ _.
End CommitteeInfo.

(** [tbft/types]: validators, the state agent and the consensus state.
    Only their interfaces are used here. *)
Record Validator `{Crypto} : Type := NewValidator {
  PubKey : PublicKey;
  VotingPower : Z;
}.
Arguments NewValidator {_} _ _.

Record Health `{Crypto} : Type := NewHealth {
  HealthID : p2p_ID;
  State : MemberFlag;
  Val : Validator;
}.
Arguments NewHealth {_} _ _ _.

Class Tbft `{Crypto} : Type := {
  ValidatorSet : Type;
  NewValidatorSet : list Validator → ValidatorSet;
  (** [ValidatorSet.HasAddress] *)
  HasAddress : ValidatorSet → list byte → bool;

  PrivValidator : Type;
  NewPrivValidator : PrivateKey → PrivValidator;
  GetAddress : PrivValidator → list byte;

  StateAgentImpl : Type;
  (** [ttypes.NewStateAgent(agent, chainID, vals, height, cid)], for the
      agent proxy of the node; [None] is the nil the caller tests for *)
  NewStateAgent : string → option ValidatorSet → Z → Z → option StateAgentImpl;
  GetValidator : StateAgentImpl → ValidatorSet;
  Priv : StateAgentImpl → option PrivValidator;
  EndHeight : StateAgentImpl → Z;
  sa_SetPrivValidator : StateAgentImpl → PrivValidator → StateAgentImpl;
  SetEndHeight : StateAgentImpl → Z → StateAgentImpl;

  ConsensusState : Type;
  HeightVoteSet : Type;
  NewConsensusState : StateAgentImpl → ConsensusState;
  Height : ConsensusState → Z;
  Validators : ConsensusState → ValidatorSet;
  (** [cs.GetRoundState().Votes] *)
  Votes : ConsensusState → HeightVoteSet;
  cs_SetPrivValidator : ConsensusState → PrivValidator → ConsensusState;
  (** [cs.UpdateValidatorSet(info)]. The consensus state was built from the
      state agent that [service.sa] points to and may write to it, so the
      call takes the agent as [service.sa] has it and gives it back next to
      the new consensus state and the stop signal. *)
  UpdateValidatorSet :
    ConsensusState → option StateAgentImpl → CommitteeInfo.t →
    ConsensusState * option StateAgentImpl * bool;
}.

(** [tbft/p2p], [tbft/help] and [params]. *)
Record NodeInfo : Type := Build_NodeInfo {
  NodeInfo_ID : p2p_ID;
  Network : string;
  Version : string;
  Moniker : string;
  ListenAddr : string;
}.

Record P2PConfig : Type := Build_P2PConfig {
  ListenAddress1 : string;
  ListenAddress2 : string;
  ExternalAddress : string;
  UPNP : bool;
  PrivatePeerIDs : string;
}.

Class Net : Type := {
  NetAddress : Type;
  (** [p2p.NewNetAddressString]; its error is dropped by the caller, [None]
      is the nil address it returns with one *)
  NewNetAddressString : string → option NetAddress;
  (** [nodeinfo.NetAddress()] *)
  NodeInfo_NetAddress : NodeInfo → option NetAddress;
  (** [help.ProtocolAndAddress] then [p2p.SplitHostPort] then
      [fmt.Sprintf("%v:%v", ip, port)] *)
  ListenAddrOf : string → string;
  (** [help.SplitAndTrim(s, ",", " ")] *)
  SplitAndTrim : string → list string;
  (** [p2p.IDAddressString(id, hostPort)] *)
  IDAddressString : p2p_ID → string → string;
}.

(** The calls made on a switch, an event bus, an address book and a health
    manager, oldest first. *)
Inductive SwitchCall `{Net} : Type :=
  | SetNodeInfo (ni : NodeInfo)
  | SetNodeKey
  | AddListener (lstr external : string) (upnp : bool)
  | AddReactor (name : string)
  | SetAddrBook
  | Switch_Start
  | Switch_Stop
  | DialPeerWithAddress (addr : option NetAddress) (persistent : bool).

Inductive EventBusCall : Type := EventBus_Start | EventBus_Stop.

Inductive AddrBookCall `{Net} : Type :=
  | AddOurAddress (addr : option NetAddress)
  | AddPrivateIDs (ids : list string).

Inductive HealthCall `{Crypto} : Type :=
  | PutWorkHealth (h : Health)
  | PutBackHealth (h : Health)
  | HealthMgr_OnStart
  | HealthMgr_OnStop
  | UpdataHealthInfo (id : p2p_ID) (ip : string) (port : Z) (pk : list byte)
  | UpdateFromCommittee (members backs : list CommitteeMember.t).

(** What the collaborators answer, as functions of the calls made so far. *)
Class Transport `{Net} : Type := {
  (** the error of [sw.Start()] *)
  Switch_Start_err : list SwitchCall → error;
  (** [sw.IsRunning()] *)
  IsRunning : list SwitchCall → bool;
  (** the error of [sw.DialPeerWithAddress(addr, persistent)] *)
  Dial_err : list SwitchCall → option NetAddress → bool → error;
  (** the error of [eventBus.Start()] *)
  EventBus_Start_err : list EventBusCall → error;
}.

(** ** The committee service *)

Section Service.
Context `{Cr : Crypto} `{Tb : !Tbft} `{Nt : Net} `{Tr : !Transport}.

Record nodeInfo : Type := Build_nodeInfo {
  ID : p2p_ID;
  Adrress : option NetAddress;
  IP : string;
  Port : Z;
  Enable : bool;
}.

(** The struct [service]. [nodeTable] maps an identity to a [*nodeInfo]
    that is nil until the endpoint is known; a nil map reads like the empty
    one and the code never writes a key that the map does not have.
    [updateChan] holds the signals sent and not yet received. [drivers]
    counts the driver goroutines launched by [start]. The lock and the
    consensus reactor, which is only handed to the switch, have no field. *)
Record service : Type := Build_service {
  sw : list SwitchCall;
  consensusState : option ConsensusState;
  sa : option StateAgentImpl;
  nodeTable : gmap string (option nodeInfo);
  updateChan : list bool;
  eventBus : list EventBusCall;
  addrBook : list AddrBookCall;
  healthMgr : list HealthCall;
  drivers : nat;
}.

Definition with_sw (s : service) (x : list SwitchCall) : service :=
  Build_service x (consensusState s) (sa s) (nodeTable s) (updateChan s)
    (eventBus s) (addrBook s) (healthMgr s) (drivers s).
Definition with_consensusState (s : service) (x : option ConsensusState) : service :=
  Build_service (sw s) x (sa s) (nodeTable s) (updateChan s)
    (eventBus s) (addrBook s) (healthMgr s) (drivers s).
Definition with_sa (s : service) (x : option StateAgentImpl) : service :=
  Build_service (sw s) (consensusState s) x (nodeTable s) (updateChan s)
    (eventBus s) (addrBook s) (healthMgr s) (drivers s).
Definition with_nodeTable (s : service) (x : gmap string (option nodeInfo)) : service :=
  Build_service (sw s) (consensusState s) (sa s) x (updateChan s)
    (eventBus s) (addrBook s) (healthMgr s) (drivers s).
Definition with_updateChan (s : service) (x : list bool) : service :=
  Build_service (sw s) (consensusState s) (sa s) (nodeTable s) x
    (eventBus s) (addrBook s) (healthMgr s) (drivers s).
Definition with_eventBus (s : service) (x : list EventBusCall) : service :=
  Build_service (sw s) (consensusState s) (sa s) (nodeTable s) (updateChan s)
    x (addrBook s) (healthMgr s) (drivers s).
Definition with_addrBook (s : service) (x : list AddrBookCall) : service :=
  Build_service (sw s) (consensusState s) (sa s) (nodeTable s) (updateChan s)
    (eventBus s) x (healthMgr s) (drivers s).
Definition with_healthMgr (s : service) (x : list HealthCall) : service :=
  Build_service (sw s) (consensusState s) (sa s) (nodeTable s) (updateChan s)
    (eventBus s) (addrBook s) x (drivers s).
Definition with_drivers (s : service) (x : nat) : service :=
  Build_service (sw s) (consensusState s) (sa s) (nodeTable s) (updateChan s)
    (eventBus s) (addrBook s) (healthMgr s) x.

(** [newNodeService]: fresh collaborators, no node table, no state agent. *)
Definition newNodeService (state : StateAgentImpl) (cid : Z) : service :=
  {| sw := []; consensusState := Some (NewConsensusState state); sa := None;
     nodeTable := ∅; updateChan := []; eventBus := []; addrBook := [];
     healthMgr := []; drivers := 0%nat |}.

Definition setNodes (s : service) (nodes : gmap string (option nodeInfo)) : service :=
  with_nodeTable s nodes.

Definition getStateAgent (s : service) : option StateAgentImpl := sa s.

(** The committee-id parity rule shared by [start] and [putNodes]. *)
Definition even_cid (cid : Z) : bool := Uint64 cid mod 2 =? 0.

(** [go func() { s.updateChan <- true }()] *)
Definition signal (s : service) (b : bool) : service :=
  with_updateChan s (updateChan s ++ [b]).

(** [connTo]; [id] is the key under which the table holds the pointer
    [node], so that the write to [node.Enable] is a write to that entry. *)
Definition connTo (s : service) (id : p2p_ID) (node : nodeInfo) : service :=
  if Enable node then s
  else
    let errDialErr := Dial_err (sw s) (Adrress node) true in
    let s := with_sw s (sw s ++ [DialPeerWithAddress (Adrress node) true]) in
    match errDialErr with
    | Some _ => s
    | None =>
        with_nodeTable s
          (<[id := Some (Build_nodeInfo (ID node) (Adrress node) (IP node) (Port node) true)]>
             (nodeTable s))
    end.

(** The body of the loop of [updateNodes] for the entry at key [k]. The
    first statement reads [v.ID]; the condition of the [if] comes after. *)
Definition updateNodes_visit (s : service) (k : p2p_ID) : outcome service :=
  match nodeTable s !! k with
  | None => Done s
  | Some v =>
      decoded ← (node ← deref NilNodeInfo v; mret (Hex.DecodeString (ID node)));
      match v with
      | None => Done s                                   (* v != nil *)
      | Some node =>
          if negb (Enable node) then
            match decoded with
            | None => Done s                             (* err == nil *)
            | Some address =>
                cs ← deref NilConsensusState (consensusState s);
                if HasAddress (Validators cs) address
                then Done (connTo s k node)
                else Done s
            end
          else Done s
      end
  end.

(** [updateNodes], ranging over the table in the order [order]. *)
Fixpoint updateNodes (order : list p2p_ID) (s : service) : outcome service :=
  match order with
  | [] => Done s
  | k :: rest => s' ← updateNodes_visit s k; updateNodes rest s'
  end.

(** An order in which the runtime may range over a table: each key once. *)
Definition range_order (tbl : gmap string (option nodeInfo)) (order : list p2p_ID) : Prop :=
  order ≡ₚ (map_to_list tbl).*1.

(** The body of the loop of [putNodes] for one candidate; the state is the
    service and the local [update]. *)
Definition putNodes_visit (cid : Z) (st : service * bool) (node : CommitteeNode.t)
    : outcome (service * bool) :=
  let '(s, update) := st in
  match UnmarshalPubkey (CommitteeNode.Publickey node) with
  | None => Done (s, update)
  | Some pub =>
      let address := PubkeyToAddress pub in
      agent ← deref NilStateAgent (sa s);
      if negb (HasAddress (GetValidator agent) address) then Done (s, update)
      else
        let port := if even_cid cid then CommitteeNode.Port node
                    else CommitteeNode.Port2 node in
        let id := Hex.EncodeToString address in
        let addr := NewNetAddressString
                      (IDAddressString id (CommitteeNode.IP node +:+ ":" +:+ pretty port)) in
        let '(s, update) :=
          match nodeTable s !! id with
          | Some None =>
              (with_nodeTable s
                 (<[id := Some (Build_nodeInfo id addr (CommitteeNode.IP node) port false)]>
                    (nodeTable s)),
               true)
          | _ => (s, update)
          end in
        Done (with_healthMgr s
                (healthMgr s ++
                   [UpdataHealthInfo id (CommitteeNode.IP node) port
                      (CommitteeNode.Publickey node)]),
              update)
  end.

Fixpoint putNodes_range (cid : Z) (nodes : list CommitteeNode.t) (st : service * bool)
    : outcome (service * bool) :=
  match nodes with
  | [] => Done st
  | node :: rest => st' ← putNodes_visit cid st node; putNodes_range cid rest st'
  end.

(** [putNodes] *)
Definition putNodes (s : service) (cid : Z) (nodes : list CommitteeNode.t) : outcome service :=
  putNodes_range cid nodes (s, false) ≫= λ '((s, update) : service * bool),
  if update then
    agent ← deref NilStateAgent (sa s);
    match Priv agent with
    | None => Done s
    | Some pv =>
        cs ← deref NilConsensusState (consensusState s);
        if HasAddress (Validators cs) (GetAddress pv) then Done (signal s true) else Done s
    end
  else Done s.

(** [stop]; its error is always nil. *)
Definition stop (s : service) : service :=
  let s :=
    if IsRunning (sw s) then
      let s := signal s false in
      let s := with_healthMgr s (healthMgr s ++ [HealthMgr_OnStop]) in
      with_eventBus s (eventBus s ++ [EventBus_Stop])
    else s in
  with_sw s (sw s ++ [Switch_Stop]).

(** ** The registry *)

(** The struct [Node]. [config] is [n.config.P2P]; the node key is
    [tcrypto.PrivKeyTrue] of the key [priv] points to, so [priv] stands
    for it; [services] is keyed by the [uint64] of the committee
    identifier. [retired] is no field of the struct: it keeps the services
    that a call stopped and did not leave in the registry, newest first, so
    that what was done to them can be stated. *)
Record Node : Type := Build_Node {
  config : P2PConfig;
  priv : PrivateKey;
  services : gmap Z service;
  nodeinfo : NodeInfo;
  chainID : string;
  retired : list service;
}.

Definition with_services (n : Node) (x : gmap Z service) : Node :=
  Build_Node (config n) (priv n) x (nodeinfo n) (chainID n) (retired n).

Definition retire (n : Node) (s : service) : Node :=
  Build_Node (config n) (priv n) (services n) (nodeinfo n) (chainID n) (s :: retired n).

(** [NewNode] *)
Definition NewNode (config : P2PConfig) (chainID : string) (priv : PrivateKey) : Node :=
  {| config := config; priv := priv; services := ∅;
     nodeinfo := Build_NodeInfo "" "" "" "" ""; chainID := chainID; retired := [] |}.

(** [start]: the service as the call leaves it, and the error returned. *)
Definition start (s : service) (cid : Z) (node : Node) : outcome (service * error) :=
  let err := EventBus_Start_err (eventBus s) in
  let s := with_eventBus s (eventBus s ++ [EventBus_Start]) in
  match err with
  | Some e => Done (s, Some e)
  | None =>
      let lstr := if even_cid cid then ListenAddress1 (config node)
                  else ListenAddress2 (config node) in
      let ni := nodeinfo node in
      let ni := Build_NodeInfo (NodeInfo_ID ni) (Network ni) (Version ni) (Moniker ni)
                  (ListenAddrOf lstr) in
      let s := with_addrBook s
                 (addrBook s ++ [AddOurAddress (NodeInfo_NetAddress ni);
                                 AddPrivateIDs (SplitAndTrim (PrivatePeerIDs (config node)))]) in
      let s := with_sw s
                 (sw s ++ [SetNodeInfo ni; SetNodeKey;
                           AddListener lstr (ExternalAddress (config node)) (UPNP (config node))]) in
      let privValidator := NewPrivValidator (priv node) in
      cs ← deref NilConsensusState (consensusState s);
      let s := with_consensusState s (Some (cs_SetPrivValidator cs privValidator)) in
      agent ← deref NilStateAgent (sa s);
      let s := with_sa s (Some (sa_SetPrivValidator agent privValidator)) in
      let err := Switch_Start_err (sw s) in
      let s := with_sw s (sw s ++ [Switch_Start]) in
      match err with
      | Some e => Done (s, Some e)
      | None => Done (with_drivers s (S (drivers s)), None)
      end
  end.

(** One turn of the goroutine launched by [start]: it receives a signal
    and either runs [updateNodes] or exits. *)
Definition driver_turn (order : list p2p_ID) (s : service) : outcome service :=
  match updateChan s with
  | [] => Done s
  | update :: rest =>
      let s := with_updateChan s rest in
      if update then updateNodes order s
      else Done (with_drivers s (Nat.pred (drivers s)))
  end.

(** The actions of [Notify]. *)
Definition Start : Z := 0.
Definition Stop : Z := 1.
Definition Switch : Z := 2.

(** [pkToP2pID] *)
Definition pkToP2pID (pk : PublicKey) : p2p_ID :=
  match UnmarshalPubkey (FromECDSAPub pk) with
  | None => ""
  | Some pub => Hex.EncodeToString (PubkeyToAddress pub)
  end.

(** [MakeValidators]; [None] is nil. *)
Definition MakeValidators (cmm : CommitteeInfo.t) : option ValidatorSet :=
  match CommitteeInfo.Id cmm with
  | None => None
  | Some _ =>
      let members := CommitteeInfo.Members cmm in
      if (length members <=? 0)%nat then None
      else
        Some (NewValidatorSet
                (imap (λ i m,
                         let power := if (i =? 0)%nat then 1 else 1 in
                         NewValidator (CommitteeMember.Publickey m) power)
                      members))
  end.

(** [makeCommitteeMembers]; [None] is the nil map. *)
Definition makeCommitteeMembers (cid : Z) (ss : option service) (cmm : CommitteeInfo.t)
    : option (gmap string (option nodeInfo)) :=
  let members := CommitteeInfo.Members cmm in
  match ss with
  | None => None
  | Some _ =>
      if (length members <=? 0)%nat then None
      else
        Some (foldl (λ tab m,
                       let id := Hex.EncodeToString
                                   (PubKeyTrue_Address (CommitteeMember.Publickey m)) in
                       <[id := None]> tab)
                    ∅ members)
  end.

(** [makeCommitteeMembersForUpdateCommittee] *)
Definition makeCommitteeMembersForUpdateCommittee (cmm : CommitteeInfo.t)
    : gmap string (option nodeInfo) :=
  let members := CommitteeInfo.Members cmm ++ CommitteeInfo.BackMembers cmm in
  foldl (λ tab m,
           match CommitteeMember.Flag m with
           | StateUsedFlag =>
               <[Hex.EncodeToString (PubKeyTrue_Address (CommitteeMember.Publickey m)) := None]> tab
           | _ => tab
           end)
        ∅ members.

(** The two health loops of [PutCommittee]. *)
Definition putWorkHealths (n : Node) (members : list CommitteeMember.t)
    (hm : list HealthCall) : list HealthCall :=
  foldl (λ hm v,
           let id := pkToP2pID (CommitteeMember.Publickey v) in
           if PubKeyTrue_Equals (PrivKeyTrue_PubKey (priv n)) (CommitteeMember.Publickey v)
           then hm
           else hm ++ [PutWorkHealth
                         (NewHealth id StateUsedFlag
                            (NewValidator (CommitteeMember.Publickey v) 1))])
        hm members.

Definition putBackHealths (members : list CommitteeMember.t)
    (hm : list HealthCall) : list HealthCall :=
  foldl (λ hm v,
           let id := pkToP2pID (CommitteeMember.Publickey v) in
           hm ++ [PutBackHealth
                    (NewHealth id StateUnusedFlag
                       (NewValidator (CommitteeMember.Publickey v) 1))])
        hm members.

(** [PutCommittee]: the registry as the call leaves it, and the error. *)
Definition PutCommittee (n : Node) (committeeInfo : CommitteeInfo.t) : Node * error :=
  let members := CommitteeInfo.Members committeeInfo in
  match CommitteeInfo.Id committeeInfo with
  | None => (n, errors_New "wrong params")
  | Some id =>
      if (length members <=? 0)%nat then (n, errors_New "wrong params")
      else
        match services n !! Uint64 id with
        | Some _ => (n, errors_New ("repeat ID:" +:+ big_String id))
        | None =>
            let startHeight := Uint64 (CommitteeInfo.StartHeight committeeInfo) in
            let cid := Uint64 id in
            match NewStateAgent (chainID n) (MakeValidators committeeInfo) startHeight cid with
            | None => (n, errors_New "make the nil state")
            | Some state =>
                let service := newNodeService state cid in
                let service :=
                  with_healthMgr service
                    (putWorkHealths n (CommitteeInfo.Members committeeInfo)
                       (healthMgr service)) in
                let service :=
                  with_healthMgr service
                    (putBackHealths (CommitteeInfo.BackMembers committeeInfo)
                       (healthMgr service)) in
                let service :=
                  with_healthMgr service (healthMgr service ++ [HealthMgr_OnStart]) in
                match makeCommitteeMembers (Uint64 id) (Some service) committeeInfo with
                | None =>
                    (retire n (stop service), errors_New "make the nil CommitteeMembers")
                | Some nodeinfo =>
                    let service := setNodes service nodeinfo in
                    let service := with_sa service (Some state) in
                    let service :=
                      with_sw service (sw service ++ [AddReactor "CONSENSUS"; SetAddrBook]) in
                    (with_services n (<[Uint64 id := service]> (services n)), None)
                end
            end
        end
  end.

(** [PutNodes] *)
Definition PutNodes (n : Node) (id : option Z) (nodes : list CommitteeNode.t)
    : outcome (Node * error) :=
  match id with
  | None => Done (n, errors_New "wrong params")
  | Some id =>
      if (length nodes <=? 0)%nat then Done (n, errors_New "wrong params")
      else
        match services n !! Uint64 id with
        | None => Done (n, errors_New ("wrong ID:" +:+ big_String id))
        | Some server =>
            server ← putNodes server id nodes;
            Done (with_services n (<[Uint64 id := server]> (services n)), None)
        end
  end.

(** [Notify]. The error of [server.start] is not bound to anything. *)
Definition Notify (n : Node) (id : Z) (action : Z) : outcome (Node * error) :=
  if action =? Start then
    match services n !! Uint64 id with
    | Some server =>
        cs ← match consensusState server with
             | None => Panic PanicZero
             | Some cs => Done cs
             end;
        agent ← deref NilStateAgent (sa server);
        started ← start server id n;
        Done (with_services n (<[Uint64 id := started.1]> (services n)), None)
    | None => Done (n, errors_New ("wrong conmmitt ID:" +:+ big_String id))
    end
  else if action =? Stop then
    match services n !! Uint64 id with
    | Some server =>
        cs ← deref NilConsensusState (consensusState server);
        let server := stop server in
        Done (retire (with_services n (delete (Uint64 id) (services n))) server, None)
    | None => Done (n, None)
    end
  else if action =? Switch then Done (n, None)
  else Done (n, None).

(** [UpdateCommittee] *)
Definition UpdateCommittee (n : Node) (info : CommitteeInfo.t) : outcome (Node * error) :=
  id ← deref NilBigInt (CommitteeInfo.Id info);
  match services n !! Uint64 id with
  | Some service =>
      cs ← deref NilConsensusState (consensusState service);
      let '(cs, agent, stopped) := UpdateValidatorSet cs (sa service) info in
      let service := with_sa (with_consensusState service (Some cs)) agent in
      let service := if stopped then stop service else service in
      let service := signal service true in
      let service :=
        with_healthMgr service
          (healthMgr service ++
             [UpdateFromCommittee (CommitteeInfo.Members info) (CommitteeInfo.BackMembers info)]) in
      Done (with_services n (<[Uint64 id := service]> (services n)), None)
  | None => Done (n, errors_New "service not found")
  end.

(** [SetCommitteeStop] *)
Definition SetCommitteeStop (n : Node) (committeeID : Z) (stop : Z) : outcome (Node * error) :=
  match services n !! Uint64 committeeID with
  | Some server =>
      agent ← deref NilStateAgent (getStateAgent server);
      let server := with_sa server (Some (SetEndHeight agent stop)) in
      Done (with_services n (<[Uint64 committeeID := server]> (services n)), None)
  | None => Done (n, errors_New ("wrong conmmitt ID:" +:+ big_String committeeID))
  end.

(** [getCommittee] *)
Definition getCommittee (n : Node) (cid : Z) : option service := services n !! cid.

(** The values stored in the result of [GetCommitteeStatus]: a committee
    map with its keys ["id"], ["nodes"] and, when set, ["nodes_cnt"]; or the
    map of [getNodeStatus] with its single key and value. *)
Inductive StatusValue : Type :=
  | CommitteeView (id : Z) (nodes : gmap string (option nodeInfo)) (nodes_cnt : option nat)
  | NodeStatusView (height : string) (votes : HeightVoteSet).

(** [int(h)] for a [uint64] [h]. *)
Definition int_of_uint64 (h : Z) : Z := if h <? 2 ^ 63 then h else h - 2 ^ 64.

(** [getNodeStatus] *)
Definition getNodeStatus (s : service) : outcome StatusValue :=
  cs ← deref NilConsensusState (consensusState s);
  Done (NodeStatusView (pretty (int_of_uint64 (Height cs))) (Votes cs)).

(** [GetCommitteeStatus] *)
Definition GetCommitteeStatus (n : Node) (committeeID : Z)
    : outcome (gmap string StatusValue) :=
  let result : gmap string StatusValue := ∅ in
  result ←
    match getCommittee n (Uint64 committeeID) with
    | Some s =>
        let committee :=
          CommitteeView (Uint64 committeeID) (nodeTable s) (Some (size (nodeTable s))) in
        let result := <["committee_now" := committee]> result in
        status ← getNodeStatus s;
        Done (<["nodeStatus" := status]> result)
    | None => Done result
    end;
  match getCommittee n (add64 (Uint64 committeeID) 1) with
  | Some s1 =>
      let committee := CommitteeView (add64 (Uint64 committeeID) 1) (nodeTable s1) None in
      Done (<["committee_next" := committee]> result)
  | None => Done result
  end.

End Service.

(** * Vocabulary of the properties *)

(** The error a call returned, when it returned. *)
Definition returned {A : Type} (o : outcome (A * error)) : option error :=
  match o with
  | Done (_, err) => Some err
  | Panic _ => None
  end.

Section Vocabulary.
Context `{Cr : Crypto} `{Tb : !Tbft} `{Nt : Net} `{Tr : !Transport}.

(** A candidate passes the two checks of [putNodes] under [V]: its key
    unmarshals and the address of the key is in [V]. *)
Definition authorised (V : ValidatorSet) (node : CommitteeNode.t) : bool :=
  match UnmarshalPubkey (CommitteeNode.Publickey node) with
  | Some pub => HasAddress V (PubkeyToAddress pub)
  | None => false
  end.

(** The identity a candidate claims, when its key unmarshals. *)
Definition derived_id (node : CommitteeNode.t) : option p2p_ID :=
  match UnmarshalPubkey (CommitteeNode.Publickey node) with
  | Some pub => Some (Hex.EncodeToString (PubkeyToAddress pub))
  | None => None
  end.

Definition port_of (cid : Z) (node : CommitteeNode.t) : Z :=
  if even_cid cid then CommitteeNode.Port node else CommitteeNode.Port2 node.

(** The call the health manager receives for a candidate that passes. *)
Definition health_update (cid : Z) (V : ValidatorSet) (node : CommitteeNode.t)
    : list HealthCall :=
  match derived_id node with
  | Some id =>
      if authorised V node
      then [UpdataHealthInfo id (CommitteeNode.IP node) (port_of cid node)
              (CommitteeNode.Publickey node)]
      else []
  | None => []
  end.

(** What one candidate may do to the table: nothing, or resolve the
    placeholder of its own identity, and then only if it passes. *)
Definition table_step (V : ValidatorSet) (node : CommitteeNode.t)
    (tbl tbl' : gmap string (option nodeInfo)) : Prop :=
  tbl' = tbl ∨
  ∃ id info,
    derived_id node = Some id ∧ authorised V node = true ∧
    tbl !! id = Some None ∧ tbl' = <[id := Some info]> tbl.

(** What a whole batch does to an entry: it is left as it was, or it was a
    placeholder and a candidate of the batch that passes resolved it. *)
Definition entry_outcome (V : ValidatorSet) (nodes : list CommitteeNode.t)
    (tbl tbl' : gmap string (option nodeInfo)) (id : p2p_ID) : Prop :=
  tbl' !! id = tbl !! id ∨
  ∃ node info,
    node ∈ nodes ∧ derived_id node = Some id ∧ authorised V node = true ∧
    tbl !! id = Some None ∧ tbl' !! id = Some (Some info).

(** The identity under which [makeCommitteeMembers] seeds a member. *)
Definition member_id (m : CommitteeMember.t) : p2p_ID :=
  Hex.EncodeToString (PubKeyTrue_Address (CommitteeMember.Publickey m)).

(** [updateNodes] owes the entry [v] a dial under [V]: it is resolved, not
    connected, and its identity decodes to an address of [V]. *)
Definition dial_due (V : ValidatorSet) (v : option nodeInfo) : bool :=
  match v with
  | Some node =>
      negb (Enable node) &&
      match Hex.DecodeString (ID node) with
      | Some address => HasAddress V address
      | None => false
      end
  | None => false
  end.

(** The dials owed to the entries of [tbl], in the order [order]. *)
Definition dials_of (V : ValidatorSet) (tbl : gmap string (option nodeInfo))
    (order : list p2p_ID) : list SwitchCall :=
  flat_map (λ k,
              match tbl !! k with
              | Some (Some node) =>
                  if dial_due V (Some node)
                  then [DialPeerWithAddress (Adrress node) true]
                  else []
              | _ => []
              end)
           order.

(** The member is the local node, by the test of [PutCommittee]. *)
Definition is_self (n : Node) (m : CommitteeMember.t) : bool :=
  PubKeyTrue_Equals (PrivKeyTrue_PubKey (priv n)) (CommitteeMember.Publickey m).

(** The health record [PutCommittee] builds for a member. *)
Definition health_record (flag : MemberFlag) (m : CommitteeMember.t) : Health :=
  NewHealth (pkToP2pID (CommitteeMember.Publickey m)) flag
    (NewValidator (CommitteeMember.Publickey m) 1).

(** The flag of the member is [StateUsedFlag]. *)
Definition flag_used (m : CommitteeMember.t) : bool :=
  match CommitteeMember.Flag m with
  | StateUsedFlag => true
  | _ => false
  end.

(** The entry [putNodes] writes for a candidate under the identity [id]. *)
Definition resolved_entry (cid : Z) (node : CommitteeNode.t) (id : p2p_ID) : nodeInfo :=
  Build_nodeInfo id
    (NewNetAddressString
       (IDAddressString id
          (CommitteeNode.IP node +:+ ":" +:+ pretty (port_of cid node))))
    (CommitteeNode.IP node) (port_of cid node) false.

(** The candidate passes under [V] and claims the identity [id]. *)
Definition announces (V : ValidatorSet) (id : p2p_ID) (node : CommitteeNode.t) : bool :=
  authorised V node && bool_decide (derived_id node = Some id).

(** The candidate passes under [V] and the table holds a nil placeholder
    under the identity it claims. *)
Definition resolves (V : ValidatorSet) (tbl : gmap string (option nodeInfo))
    (node : CommitteeNode.t) : bool :=
  authorised V node &&
  match derived_id node with
  | Some id => match tbl !! id with Some None => true | _ => false end
  | None => false
  end.

(** The local node has a signing key whose address is in the validator set
    of the consensus state: the last test of [putNodes]. *)
Definition local_member (agent : StateAgentImpl) (cs : ConsensusState) : bool :=
  match Priv agent with
  | Some pv => HasAddress (Validators cs) (GetAddress pv)
  | None => false
  end.

(** The entry [connTo] leaves after a dial that succeeded. *)
Definition connected (node : nodeInfo) : nodeInfo :=
  Build_nodeInfo (ID node) (Adrress node) (IP node) (Port node) true.

(** [updateNodes] owes a dial to what the table holds under [k]. *)
Definition due_at (V : ValidatorSet) (tbl : gmap string (option nodeInfo))
    (k : p2p_ID) : bool :=
  dial_due V (default None (tbl !! k)).

End Vocabulary.

(** * A small world to run the code in

    Collaborators simple enough to compute with: a key is its own encoding
    and its own address, the empty encoding does not unmarshal, a validator
    set is the list of its addresses, and the consensus state answers
    [UpdateValidatorSet] with a stop signal when the key it was given by
    [SetPrivValidator] is no longer a member. *)

Module Toy.

Fixpoint bytes_eqb (a b : list byte) : bool :=
  match a, b with
  | [], [] => true
  | x :: a, y :: b => Byte.eqb x y && bytes_eqb a b
  | _, _ => false
  end.

(** Membership of an address in a list of addresses. *)
Definition has (V : list (list byte)) (a : list byte) : bool :=
  existsb (bytes_eqb a) V.

#[local] Instance crypto : Crypto := {|
  PublicKey := list byte;
  PrivateKey := list byte;
  UnmarshalPubkey bs := match bs with [] => None | _ => Some bs end;
  FromECDSAPub pk := pk;
  PubkeyToAddress pk := pk;
  PubKeyTrue_Address pk := pk;
  PubKeyTrue_Equals a b := bytes_eqb a b;
  PrivKeyTrue_PubKey k := k;
|}.

Record Agent : Type := Build_Agent {
  agent_vals : list (list byte);
  agent_priv : option (list byte);
  agent_end : Z;
}.

Record Consensus : Type := Build_Consensus {
  cons_height : Z;
  cons_vals : list (list byte);
  cons_priv : option (list byte);
}.

Definition member_keys (ms : list CommitteeMember.t) : list (list byte) :=
  map CommitteeMember.Publickey ms.

#[local] Instance tbft : Tbft := {|
  ValidatorSet := list (list byte);
  NewValidatorSet vals := map PubKey vals;
  HasAddress V a := has V a;
  PrivValidator := list byte;
  NewPrivValidator k := k;
  GetAddress pv := pv;
  StateAgentImpl := Agent;
  NewStateAgent _ vals _ _ :=
    match vals with
    | Some V => Some (Build_Agent V None 0)
    | None => None
    end;
  GetValidator a := agent_vals a;
  Priv a := agent_priv a;
  EndHeight a := agent_end a;
  sa_SetPrivValidator a pv := Build_Agent (agent_vals a) (Some pv) (agent_end a);
  SetEndHeight a h := Build_Agent (agent_vals a) (agent_priv a) h;
  ConsensusState := Consensus;
  HeightVoteSet := unit;
  NewConsensusState a := Build_Consensus 0 (agent_vals a) None;
  Height c := cons_height c;
  Validators c := cons_vals c;
  Votes _ := tt;
  cs_SetPrivValidator c pv := Build_Consensus (cons_height c) (cons_vals c) (Some pv);
  UpdateValidatorSet c a info :=
    let V := member_keys (CommitteeInfo.Members info) in
    (Build_Consensus (cons_height c) V (cons_priv c),
     (λ a, Build_Agent V (agent_priv a) (agent_end a)) <$> a,
     match cons_priv c with
     | Some k => negb (has V k)
     | None => false
     end);
|}.

#[local] Instance net : Net := {|
  NetAddress := string;
  NewNetAddressString s := Some s;
  NodeInfo_NetAddress ni := Some (ListenAddr ni);
  ListenAddrOf lstr := lstr;
  SplitAndTrim s := [s];
  IDAddressString id hostPort := id +:+ "@" +:+ hostPort;
|}.

(** The switch runs from its last [Start] to its next [Stop]. *)
Definition running (calls : list SwitchCall) : bool :=
  foldl (λ r c,
           match c with
           | Switch_Start => true
           | Switch_Stop => false
           | _ => r
           end)
        false calls.

(** Every collaborator starts and every dial succeeds. *)
#[local] Instance transport : Transport := {|
  Switch_Start_err _ := None;
  IsRunning := running;
  Dial_err _ _ _ := None;
  EventBus_Start_err _ := None;
|}.

(** The event bus refuses to start. *)
Definition transport_bus_down : Transport := {|
  Switch_Start_err _ := None;
  IsRunning := running;
  Dial_err _ _ _ := None;
  EventBus_Start_err _ := Some "event bus: already started";
|}.

(** The switch refuses to start. *)
Definition transport_switch_down : Transport := {|
  Switch_Start_err _ := Some "switch: listener failed";
  IsRunning := running;
  Dial_err _ _ _ := None;
  EventBus_Start_err _ := None;
|}.

(** Three keys; the first is the local node's. *)
Definition key_self : list byte := [Byte.x01].
Definition key_a : list byte := [Byte.xaa].
Definition key_b : list byte := [Byte.xbb].

Definition member (k : list byte) : CommitteeMember.t :=
  CommitteeMember.Build k StateUsedFlag.

Definition p2p_config : P2PConfig :=
  Build_P2PConfig "tcp://0.0.0.0:30310" "tcp://0.0.0.0:30311" "" false "".

Definition node0 : Node := NewNode p2p_config "truechain" key_self.

(** Committee 7: the local node and two others. *)
Definition committee7 : CommitteeInfo.t :=
  CommitteeInfo.Build (Some 7) 100 [member key_self; member key_a; member key_b] [].

(** Committee 7 once the local node has left it. *)
Definition committee7_without_self : CommitteeInfo.t :=
  CommitteeInfo.Build (Some 7) 100 [member key_a; member key_b] [].

(** Committee 9: the local node alone. *)
Definition committee9_self_only : CommitteeInfo.t :=
  CommitteeInfo.Build (Some 9) 100 [member key_self] [].

(** The announcement of the endpoint of [key_a]. *)
Definition endpoint_a : CommitteeNode.t :=
  CommitteeNode.Build "1.2.3.4" 30303 30304 key_a.

(** An announcement whose key does not unmarshal. *)
Definition endpoint_malformed : CommitteeNode.t :=
  CommitteeNode.Build "6.6.6.6" 1 2 [].

(** An announcement of a key that is in no committee. *)
Definition endpoint_stranger : CommitteeNode.t :=
  CommitteeNode.Build "6.6.6.6" 1 2 [Byte.xcc].

(** The registry after [PutCommittee] of committee 7. *)
Definition node7 : Node := (PutCommittee node0 committee7).1.

Definition service_of (n : Node) (cid : Z) : service :=
  default (newNodeService (Build_Agent [] None 0) cid) (services n !! cid).

Definition run {A} (dflt : A) (o : outcome A) : A :=
  match o with
  | Done a => a
  | Panic _ => dflt
  end.

(** Committee 7 with the endpoint of [key_a] resolved. *)
Definition node7_a : Node := (run (node7, None) (PutNodes node7 (Some 7) [endpoint_a])).1.

(** Committee 7 started. *)
Definition node7_started : Node := (run (node7_a, None) (Notify node7_a 7 Start)).1.

(** Committee 7 after the local node left it. *)
Definition node7_left : Node :=
  (run (node7_started, None) (UpdateCommittee node7_started committee7_without_self)).1.

(** [key_a] announces a new endpoint. *)
Definition endpoint_a_moved : CommitteeNode.t :=
  CommitteeNode.Build "5.6.7.8" 30303 30304 key_a.

Definition agent7 : Agent := Build_Agent [key_self; key_a; key_b] None 0.
Definition cons7 : Consensus := Build_Consensus 0 [key_self; key_a; key_b] None.

Definition cons7_started : Consensus :=
  Build_Consensus 0 [key_self; key_a; key_b] (Some key_self).

Definition agent7_started : Agent :=
  Build_Agent [key_self; key_a; key_b] (Some key_self) 0.

Definition agent9 : Agent := Build_Agent [key_self] None 0.

(** The registry after [PutCommittee] of committee 9. *)
Definition node9 : Node := (PutCommittee node0 committee9_self_only).1.

Definition batch7 : list CommitteeNode.t :=
  [endpoint_malformed; endpoint_a; endpoint_stranger].

(** The announcements of the endpoints of the local node and of [key_b]. *)
Definition endpoint_self : CommitteeNode.t :=
  CommitteeNode.Build "10.0.0.1" 30303 30304 key_self.

Definition endpoint_b : CommitteeNode.t :=
  CommitteeNode.Build "9.8.7.6" 30303 30304 key_b.

(** Committee 7 with every endpoint announced, then started. *)
Definition node7_all : Node :=
  (run (node7, None) (PutNodes node7 (Some 7) [endpoint_self; endpoint_a; endpoint_b])).1.

Definition node7_all_started : Node :=
  (run (node7_all, None) (Notify node7_all 7 Start)).1.

(** The registry with committees 7 and 9. *)
Definition node7_9 : Node := (PutCommittee node7 committee9_self_only).1.

End Toy.

(** * Properties *)

Ltac unfold_outcome :=
  unfold mbind, outcome_bind, mret, outcome_ret, deref in *.

(** ** [encoding/hex] *)

Module HexFacts.
Import Hex.

Lemma decode_encode_byte (v : byte) (rest : string) :
  DecodeString
    (String (hexdigit (N.shiftr (Byte.to_N v) 4))
       (String (hexdigit (N.land (Byte.to_N v) 15)) rest))
  = match DecodeString rest with Some tl => Some (v :: tl) | None => None end.
Proof.
  cbn [DecodeString].
  destruct v; vm_compute fromHexChar; cbv iota beta;
    vm_compute byte_of_nibbles; reflexivity.
Qed.

Lemma DecodeString_EncodeToString (src : list byte) :
  DecodeString (EncodeToString src) = Some src.
Proof.
  induction src as [|v rest IH]; [reflexivity|].
  cbn [EncodeToString]. rewrite decode_encode_byte, IH. reflexivity.
Qed.

End HexFacts.

(** ** [putNodes] *)

Section PutNodesFacts.
Context `{Cr : Crypto} `{Tb : !Tbft} `{Nt : Net} `{Tr : !Transport}.

Lemma putNodes_visit_skip cid s update agent node :
  sa s = Some agent →
  authorised (GetValidator agent) node = false →
  putNodes_visit cid (s, update) node = Done (s, update).
Proof.
  intros Hsa Hauth. unfold putNodes_visit, authorised in *.
  destruct (UnmarshalPubkey _) as [pub|]; [|reflexivity].
  rewrite Hsa. unfold_outcome. rewrite Hauth. reflexivity.
Qed.

Lemma putNodes_visit_spec cid s update agent node :
  sa s = Some agent →
  ∃ s' update',
    putNodes_visit cid (s, update) node = Done (s', update') ∧
    sa s' = sa s ∧ consensusState s' = consensusState s ∧
    sw s' = sw s ∧ updateChan s' = updateChan s ∧
    table_step (GetValidator agent) node (nodeTable s) (nodeTable s') ∧
    healthMgr s' = healthMgr s ++ health_update cid (GetValidator agent) node.
Proof.
  intros Hsa.
  destruct (authorised (GetValidator agent) node) eqn:Hauth.
  - assert (Hid : ∃ pub, UnmarshalPubkey (CommitteeNode.Publickey node) = Some pub
                        ∧ HasAddress (GetValidator agent) (PubkeyToAddress pub) = true).
    { unfold authorised in Hauth.
      destruct (UnmarshalPubkey _) as [pub|]; [by exists pub | discriminate]. }
    destruct Hid as (pub & Hpub & Hhas).
    assert (Hder : derived_id node = Some (Hex.EncodeToString (PubkeyToAddress pub)))
      by (unfold derived_id; by rewrite Hpub).
    unfold putNodes_visit, health_update. rewrite Hder, Hauth, Hpub, Hsa.
    unfold_outcome. rewrite Hhas. cbn [negb]. fold (port_of cid node).
    destruct (nodeTable s !! Hex.EncodeToString (PubkeyToAddress pub))
      as [[old|]|] eqn:Hlook; cbn.
    + eexists _, _. split; [reflexivity|]. repeat split; try done. by left.
    + eexists _, _. split; [reflexivity|]. repeat split; try done.
      right. eexists _, _. repeat split; try done.
    + eexists _, _. split; [reflexivity|]. repeat split; try done. by left.
  - rewrite (putNodes_visit_skip _ _ _ agent) by done.
    exists s, update. repeat split; try reflexivity.
    + by left.
    + unfold health_update. rewrite Hauth.
      destruct (derived_id node); by rewrite app_nil_r.
Qed.

Lemma putNodes_range_app cid l1 l2 st :
  putNodes_range cid (l1 ++ l2) st
  = putNodes_range cid l1 st ≫= putNodes_range cid l2.
Proof.
  revert st. induction l1 as [|node l1 IH]; intros st; [reflexivity|].
  cbn [app putNodes_range]. destruct (putNodes_visit cid st node) as [st'|p].
  - unfold_outcome. apply IH.
  - reflexivity.
Qed.

Lemma putNodes_range_spec cid nodes s update agent :
  sa s = Some agent →
  ∃ s' update',
    putNodes_range cid nodes (s, update) = Done (s', update') ∧
    sa s' = sa s ∧ consensusState s' = consensusState s ∧
    sw s' = sw s ∧
    (∀ id, entry_outcome (GetValidator agent) nodes (nodeTable s) (nodeTable s') id) ∧
    (∀ id e, nodeTable s !! id = Some (Some e) → nodeTable s' !! id = Some (Some e)) ∧
    healthMgr s' = healthMgr s ++ flat_map (health_update cid (GetValidator agent)) nodes.
Proof.
  revert s update. induction nodes as [|node rest IH]; intros s update Hsa.
  - exists s, update. repeat split; try done.
    + intros id. by left.
    + cbn. by rewrite app_nil_r.
  - destruct (putNodes_visit_spec cid s update agent node Hsa)
      as (s1 & u1 & Hv & Hsa1 & Hcs1 & Hsw1 & _ & Hstep & Hh1).
    destruct (IH s1 u1) as (s2 & u2 & Hr & Hsa2 & Hcs2 & Hsw2 & Hent & Hkeep & Hh2);
      [congruence|].
    exists s2, u2. cbn [putNodes_range]. rewrite Hv. unfold_outcome.
    repeat split; try congruence.
    + intros id. unfold entry_outcome.
      destruct (Hent id) as [Hsame | (nd & info & Hin & Hid & Hau & Hold & Hnew)].
      * destruct Hstep as [Heq | (id0 & info & Hid & Hau & Hold & Heq)].
        { left. by rewrite Hsame, Heq. }
        destruct (decide (id0 = id)) as [->|Hne].
        { right. exists node, info. rewrite Hsame, Heq, lookup_insert_eq.
          repeat split; try done. apply list_elem_of_here. }
        { left. rewrite Hsame, Heq. by rewrite lookup_insert_ne. }
      * destruct Hstep as [Heq | (id0 & info0 & Hid0 & Hau0 & Hold0 & Heq)].
        { right. exists nd, info. rewrite <- Heq.
          repeat split; try done. by apply list_elem_of_further. }
        destruct (decide (id0 = id)) as [->|Hne].
        { rewrite Heq, lookup_insert_eq in Hold. discriminate. }
        { right. exists nd, info. rewrite Heq, lookup_insert_ne in Hold by done.
          repeat split; try done. by apply list_elem_of_further. }
    + intros id e He. apply Hkeep.
      destruct Hstep as [Heq | (id0 & info & Hid & Hau & Hold & Heq)];
        rewrite Heq; [done|].
      destruct (decide (id0 = id)) as [->|Hne]; [congruence|].
      by rewrite lookup_insert_ne.
    + rewrite Hh2, Hh1. cbn [flat_map]. by rewrite app_assoc.
Qed.

(** [putNodes] returns on a service whose state agent and consensus state
    are set, and differs from the loop only by the signal. *)
Lemma putNodes_spec cid nodes s agent cs :
  sa s = Some agent → consensusState s = Some cs →
  ∃ s1 update s',
    putNodes_range cid nodes (s, false) = Done (s1, update) ∧
    putNodes s cid nodes = Done s' ∧
    nodeTable s' = nodeTable s1 ∧ healthMgr s' = healthMgr s1 ∧ sw s' = sw s1.
Proof.
  intros Hsa Hcs.
  destruct (putNodes_range_spec cid nodes s false agent Hsa)
    as (s1 & u1 & Hr & Hsa1 & Hcs1 & _).
  exists s1, u1. unfold putNodes. rewrite Hr. unfold_outcome.
  destruct u1.
  - rewrite Hsa1, Hsa, Hcs1, Hcs.
    destruct (Priv agent) as [pv|]; [|by eexists].
    destruct (HasAddress _ _); by eexists.
  - by eexists.
Qed.
Lemma putNodes_range_skip cid before bad after s update agent :
  sa s = Some agent →
  authorised (GetValidator agent) bad = false →
  putNodes_range cid (before ++ bad :: after) (s, update)
  = putNodes_range cid (before ++ after) (s, update).
Proof.
  intros Hsa Hbad. rewrite !putNodes_range_app.
  destruct (putNodes_range_spec cid before s update agent Hsa)
    as (s1 & u1 & -> & Hsa1 & _).
  unfold_outcome. cbn [putNodes_range].
  rewrite (putNodes_visit_skip cid s1 u1 agent) by congruence.
  reflexivity.
Qed.

Lemma putNodes_range_all_skipped cid nodes s update agent :
  sa s = Some agent →
  Forall (λ node, authorised (GetValidator agent) node = false) nodes →
  putNodes_range cid nodes (s, update) = Done (s, update).
Proof.
  intros Hsa Hall. induction Hall as [|node rest Hnode _ IH]; [reflexivity|].
  cbn [putNodes_range]. rewrite (putNodes_visit_skip cid s update agent) by done.
  exact IH.
Qed.

(** C1. [putNodes] returns, and a candidate of the batch is admitted into
    the node table only if its key unmarshals and the identity derived from
    it is in the validator set of the service: every entry of the table is
    left as it was, or was a placeholder resolved by such a candidate. A
    candidate that fails either check is skipped: the call ends in the same
    service as the call on the batch without that candidate, and a batch
    of such candidates alone ends in the service it started from. *)
Theorem putNodes_admits_only_validators
    (s : service) (agent : StateAgentImpl) (cs : ConsensusState)
    (cid : Z) (nodes : list CommitteeNode.t) :
  sa s = Some agent →
  consensusState s = Some cs →
  ∃ s',
    putNodes s cid nodes = Done s' ∧
    (∀ id, entry_outcome (GetValidator agent) nodes (nodeTable s) (nodeTable s') id) ∧
    (∀ before bad after,
       nodes = before ++ bad :: after →
       authorised (GetValidator agent) bad = false →
       putNodes s cid (before ++ after) = Done s') ∧
    (Forall (λ node, authorised (GetValidator agent) node = false) nodes → s' = s).
Proof.
  intros Hsa Hcs.
  destruct (putNodes_spec cid nodes s agent cs Hsa Hcs)
    as (s1 & u1 & s' & Hr & Hp & Htbl & _).
  destruct (putNodes_range_spec cid nodes s false agent Hsa)
    as (s1' & u1' & Hr' & _ & _ & _ & Hent & _).
  rewrite Hr in Hr'. injection Hr' as <- <-.
  exists s'. split; [exact Hp|]. split; [|split].
  - intros id. rewrite Htbl. apply Hent.
  - intros before bad after -> Hbad. rewrite <- Hp. unfold putNodes.
    by rewrite (putNodes_range_skip cid before bad after s false agent).
  - intros Hall. unfold putNodes in Hp.
    rewrite (putNodes_range_all_skipped cid nodes s false agent) in Hp by done.
    unfold_outcome. by injection Hp.
Qed.

(** C2. On a service whose state agent and consensus state are set,
    [putNodes] returns and leaves every resolved entry of the node table
    exactly as it was (address, IP, port and connected flag), and the
    health manager receives, in the order of the batch, one
    [UpdataHealthInfo] for each valid candidate, that is each candidate
    that passes the key and validator-set checks, whether the entry of the
    candidate was resolved or not, and none for the others. *)
Theorem putNodes_resolved_write_once
    (s : service) (agent : StateAgentImpl) (cs : ConsensusState)
    (cid : Z) (nodes : list CommitteeNode.t) :
  sa s = Some agent →
  consensusState s = Some cs →
  ∃ s',
    putNodes s cid nodes = Done s' ∧
    (∀ id e, nodeTable s !! id = Some (Some e) → nodeTable s' !! id = Some (Some e)) ∧
    healthMgr s' = healthMgr s ++ flat_map (health_update cid (GetValidator agent)) nodes.
Proof.
  intros Hsa Hcs.
  destruct (putNodes_spec cid nodes s agent cs Hsa Hcs)
    as (s1 & u1 & s' & Hr & Hp & Htbl & Hhm & _).
  destruct (putNodes_range_spec cid nodes s false agent Hsa)
    as (s1' & u1' & Hr' & _ & _ & _ & _ & Hkeep & Hh).
  rewrite Hr in Hr'. injection Hr' as <- <-.
  exists s'. split; [exact Hp|]. rewrite Htbl, Hhm. by split.
Qed.
End PutNodesFacts.

Section PutNodesRuns.
Import Toy.
#[local] Existing Instances Toy.crypto Toy.tbft Toy.net Toy.transport.

Lemma putNodes_admits_only_validators_witness :
  ∃ s',
    putNodes (service_of node7 7) 7 batch7 = Done s' ∧
    (∀ id, entry_outcome (GetValidator agent7) batch7
             (nodeTable (service_of node7 7)) (nodeTable s') id) ∧
    (∀ before bad after,
       batch7 = before ++ bad :: after →
       authorised (GetValidator agent7) bad = false →
       putNodes (service_of node7 7) 7 (before ++ after) = Done s') ∧
    (Forall (λ node, authorised (GetValidator agent7) node = false) batch7 →
     s' = service_of node7 7).
Proof.
  apply (putNodes_admits_only_validators (service_of node7 7) agent7 cons7 7 batch7);
    reflexivity.
Defined.

Lemma putNodes_resolved_write_once_witness :
  ∃ s',
    putNodes (service_of node7_a 7) 7 [endpoint_a_moved] = Done s' ∧
    (∀ id e, nodeTable (service_of node7_a 7) !! id = Some (Some e) →
             nodeTable s' !! id = Some (Some e)) ∧
    healthMgr s'
    = healthMgr (service_of node7_a 7)
      ++ flat_map (health_update 7 (GetValidator agent7)) [endpoint_a_moved].
Proof.
  apply (putNodes_resolved_write_once (service_of node7_a 7) agent7 cons7 7
           [endpoint_a_moved]);
    reflexivity.
Defined.
End PutNodesRuns.

(** ** [updateNodes] *)

Section UpdateNodesFacts.
Context `{Cr : Crypto} `{Tb : !Tbft} `{Nt : Net} `{Tr : !Transport}.

Lemma connTo_fields s id node :
  consensusState (connTo s id node) = consensusState s ∧
  (∀ k, k ≠ id → nodeTable (connTo s id node) !! k = nodeTable s !! k) ∧
  sw (connTo s id node)
  = sw s ++ (if Enable node then [] else [DialPeerWithAddress (Adrress node) true]).
Proof.
  unfold connTo. destruct (Enable node).
  - repeat split; try done. by rewrite app_nil_r.
  - destruct (Dial_err _ _ _); cbn; repeat split; try done.
    intros k Hk. by rewrite lookup_insert_ne.
Qed.

Lemma updateNodes_visit_nil s k :
  nodeTable s !! k = Some None →
  updateNodes_visit s k = Panic NilNodeInfo.
Proof. intros Hk. unfold updateNodes_visit. by rewrite Hk. Qed.

(** A visit that is not stopped by a nil entry returns; it writes no key
    but the one it visits and calls the switch only for a dial it owes. *)
Lemma updateNodes_visit_spec s cs k :
  consensusState s = Some cs →
  nodeTable s !! k ≠ Some None →
  ∃ s',
    updateNodes_visit s k = Done s' ∧
    consensusState s' = Some cs ∧
    (∀ k', k' ≠ k → nodeTable s' !! k' = nodeTable s !! k') ∧
    sw s' = sw s ++ dials_of (Validators cs) (nodeTable s) [k].
Proof.
  intros Hcs Hk. unfold updateNodes_visit, dials_of. cbn [flat_map].
  rewrite app_nil_r.
  destruct (nodeTable s !! k) as [[node|]|] eqn:Hlook; [|done|].
  - unfold_outcome. cbn [dial_due].
    destruct (Enable node) eqn:Hen; cbn [negb andb].
    { exists s. rewrite app_nil_r. by repeat split. }
    destruct (Hex.DecodeString (ID node)) as [address|].
    + rewrite Hcs. destruct (HasAddress (Validators cs) address).
      * destruct (connTo_fields s k node) as (Hc & Ht & Hs).
        rewrite Hen in Hs. exists (connTo s k node).
        repeat split; try done. congruence.
      * exists s. rewrite app_nil_r. by repeat split.
    + exists s. rewrite app_nil_r. by repeat split.
  - exists s. rewrite app_nil_r. by repeat split.
Qed.

Lemma updateNodes_reaches_nil order s cs k :
  consensusState s = Some cs →
  k ∈ order →
  nodeTable s !! k = Some None →
  updateNodes order s = Panic NilNodeInfo.
Proof.
  revert s. induction order as [|k0 rest IH]; intros s Hcs Hin Hk.
  - by apply elem_of_nil in Hin.
  - cbn [updateNodes].
    assert (nodeTable s !! k0 = Some None ∨ nodeTable s !! k0 ≠ Some None)
      as [Hnil|Hres]
      by (destruct (nodeTable s !! k0) as [[?|]|]; [by right | by left | by right]).
    { by rewrite (updateNodes_visit_nil s k0 Hnil). }
    destruct (updateNodes_visit_spec s cs k0 Hcs Hres) as (s' & -> & Hcs' & Hother & _).
    unfold_outcome.
    assert (k ≠ k0) as Hne by congruence.
    apply IH; [done| |].
    + apply elem_of_cons in Hin as [?|?]; [done|done].
    + by rewrite Hother.
Qed.

Lemma range_order_elem tbl order k v :
  range_order tbl order → tbl !! k = Some v → k ∈ order.
Proof.
  unfold range_order. intros -> Hk.
  apply list_elem_of_fmap. exists (k, v). split; [done|].
  by apply elem_of_map_to_list.
Qed.

Lemma range_order_NoDup tbl order : range_order tbl order → NoDup order.
Proof. unfold range_order. intros ->. apply NoDup_fst_map_to_list. Qed.

(** C4. Where the table holds a nil record, the visit of that entry reads
    its [ID] field through the nil pointer and panics before the condition
    with the nil test is evaluated; so does every pass of [updateNodes]
    over the table, whatever the order of the range. *)
Theorem updateNodes_reads_nil_entry
    (s : service) (cs : ConsensusState) (order : list p2p_ID) (k : p2p_ID) :
  consensusState s = Some cs →
  range_order (nodeTable s) order →
  nodeTable s !! k = Some None →
  updateNodes_visit s k = Panic NilNodeInfo ∧
  updateNodes order s = Panic NilNodeInfo.
Proof.
  intros Hcs Hord Hk. split.
  - by apply updateNodes_visit_nil.
  - apply (updateNodes_reaches_nil order s cs k); [done| |done].
    by apply (range_order_elem (nodeTable s) order k None).
Qed.

Lemma dials_of_agree V (tbl tbl' : gmap string (option nodeInfo)) order :
  (∀ k, k ∈ order → tbl' !! k = tbl !! k) →
  dials_of V tbl' order = dials_of V tbl order.
Proof.
  induction order as [|k rest IH]; intros Hagree; [reflexivity|].
  unfold dials_of in *. cbn [flat_map].
  rewrite (Hagree k) by apply list_elem_of_here.
  f_equal. apply IH. intros k' Hin. by apply Hagree, list_elem_of_further.
Qed.

(** On a table without nil records the pass returns and dials exactly the
    entries that are not connected and whose identity is in the validator
    set of the consensus state, each once, in the order of the range. *)
Lemma updateNodes_dials_resolved order s cs :
  consensusState s = Some cs →
  NoDup order →
  (∀ k, k ∈ order → nodeTable s !! k ≠ Some None) →
  ∃ s',
    updateNodes order s = Done s' ∧
    sw s' = sw s ++ dials_of (Validators cs) (nodeTable s) order.
Proof.
  revert s. induction order as [|k rest IH]; intros s Hcs Hnd Hres.
  - exists s. cbn. by rewrite app_nil_r.
  - apply NoDup_cons in Hnd as [Hk Hnd].
    destruct (updateNodes_visit_spec s cs k Hcs) as (s1 & Hv & Hcs1 & Hother & Hsw1).
    { apply Hres, list_elem_of_here. }
    assert (Hrest : ∀ k', k' ∈ rest → nodeTable s1 !! k' = nodeTable s !! k').
    { intros k' Hin. apply Hother. intros ->. done. }
    destruct (IH s1 Hcs1 Hnd) as (s2 & Hr & Hsw2).
    { intros k' Hin. rewrite Hrest by done. by apply Hres, list_elem_of_further. }
    exists s2. cbn [updateNodes]. rewrite Hv. unfold_outcome. split; [done|].
    rewrite Hsw2, Hsw1, <- app_assoc. f_equal.
    rewrite (dials_of_agree _ (nodeTable s) (nodeTable s1) rest Hrest).
    unfold dials_of. cbn [flat_map]. by rewrite app_nil_r.
Qed.
End UpdateNodesFacts.

Section UpdateNodesRuns.
Import Toy.
#[local] Existing Instances Toy.crypto Toy.tbft Toy.net Toy.transport.

Lemma range_order_node7 :
  range_order (nodeTable (service_of node7_started 7)) ["bb"; "aa"; "01"].
Proof.
  unfold range_order.
  let keys := eval vm_compute in
                (fst <$> map_to_list (nodeTable (service_of node7_started 7))) in
  change (["bb"; "aa"; "01"] ≡ₚ keys).
  apply perm_swap.
Defined.

Lemma updateNodes_reads_nil_entry_witness :
  updateNodes_visit (service_of node7_started 7) "bb" = Panic NilNodeInfo ∧
  updateNodes ["bb"; "aa"; "01"] (service_of node7_started 7) = Panic NilNodeInfo.
Proof.
  apply (updateNodes_reads_nil_entry (service_of node7_started 7) cons7_started
           ["bb"; "aa"; "01"] "bb");
    [reflexivity | exact range_order_node7 | reflexivity].
Defined.

(** C3 fails on the code. Committee 7 is registered, the endpoint of
    [key_a] is announced and the committee is started: the entry of [key_a]
    is resolved, not connected and in the validator set, the two other
    entries are nil. A pass that ranges over the table in the order
    bb, aa, 01 panics at the first entry and has dialled nothing; in the
    order aa, bb, 01 it panics at the second. *)
Lemma updateNodes_scenario_panics :
  let s := service_of node7_started 7 in
  range_order (nodeTable s) ["bb"; "aa"; "01"] ∧
  dials_of (Validators cons7_started) (nodeTable s) ["bb"; "aa"; "01"]
  = [DialPeerWithAddress (Some "aa@1.2.3.4:30304") true] ∧
  updateNodes ["bb"; "aa"; "01"] s = Panic NilNodeInfo ∧
  updateNodes ["aa"; "bb"; "01"] s = Panic NilNodeInfo.
Proof.
  cbv zeta. split; [exact range_order_node7|].
  split; [|split]; reflexivity.
Qed.
End UpdateNodesRuns.

(** ** The registry *)

Section RegistryFacts.
Context `{Cr : Crypto} `{Tb : !Tbft} `{Nt : Net} `{Tr : !Transport}.

Lemma seed_lookup (members : list CommitteeMember.t)
    (tab : gmap string (option nodeInfo)) (k : p2p_ID) :
  foldl (λ tab m, <[member_id m := None]> tab) tab members !! k
  = if decide (k ∈ member_id <$> members) then Some None else tab !! k.
Proof.
  revert tab. induction members as [|m ms IH]; intros tab; cbn [foldl fmap list_fmap].
  - case_decide as Hin; [by apply elem_of_nil in Hin | done].
  - rewrite IH. destruct (decide (k ∈ member_id <$> ms)) as [Hin|Hnin].
    + rewrite decide_True; [done | by apply list_elem_of_further].
    + destruct (decide (k = member_id m)) as [->|Hne].
      * rewrite decide_True by apply list_elem_of_here. apply lookup_insert_eq.
      * rewrite decide_False; [by rewrite lookup_insert_ne|].
        intros [?|?]%elem_of_cons; done.
Qed.

Lemma seed_size (members : list CommitteeMember.t)
    (tab : gmap string (option nodeInfo)) :
  NoDup (member_id <$> members) →
  (∀ m, m ∈ members → tab !! member_id m = None) →
  size (foldl (λ tab m, <[member_id m := None]> tab) tab members)
  = (size tab + length members)%nat.
Proof.
  revert tab. induction members as [|m ms IH]; intros tab Hnd Hfresh;
    cbn [foldl length]; [lia|].
  cbn [fmap list_fmap] in Hnd. apply NoDup_cons in Hnd as [Hm Hnd].
  rewrite IH; [|done|].
  - rewrite map_size_insert_None by apply Hfresh, list_elem_of_here. lia.
  - intros m' Hin. rewrite lookup_insert_ne.
    + by apply Hfresh, list_elem_of_further.
    + intros Heq. apply Hm. rewrite Heq. by apply list_elem_of_fmap_2.
Qed.

Lemma makeCommitteeMembers_seeds cid svc D :
  CommitteeInfo.Members D ≠ [] →
  makeCommitteeMembers cid (Some svc) D
  = Some (foldl (λ tab m, <[member_id m := None]> tab) ∅ (CommitteeInfo.Members D)).
Proof.
  intros Hne. unfold makeCommitteeMembers.
  destruct (CommitteeInfo.Members D); [done | reflexivity].
Qed.

(** A descriptor with an identifier that is not registered, a member and
    a state agent is registered, wired and seeded. *)
Lemma PutCommittee_accepts n D id state :
  CommitteeInfo.Id D = Some id →
  CommitteeInfo.Members D ≠ [] →
  services n !! Uint64 id = None →
  NewStateAgent (chainID n) (MakeValidators D)
    (Uint64 (CommitteeInfo.StartHeight D)) (Uint64 id) = Some state →
  ∃ svc,
    PutCommittee n D = (with_services n (<[Uint64 id := svc]> (services n)), None) ∧
    nodeTable svc
    = foldl (λ tab m, <[member_id m := None]> tab) ∅ (CommitteeInfo.Members D) ∧
    consensusState svc = Some (NewConsensusState state) ∧
    sa svc = Some state.
Proof.
  intros Hid Hne Hfree Hstate. unfold PutCommittee.
  rewrite Hid, Hfree, Hstate.
  assert ((length (CommitteeInfo.Members D) <=? 0)%nat = false) as ->
    by (destruct (CommitteeInfo.Members D); [done | reflexivity]).
  rewrite makeCommitteeMembers_seeds by done.
  eexists. split; [reflexivity|]. by repeat split.
Qed.

(** C5, as amended. An accepted descriptor is registered with a node
    table that holds a nil placeholder for the identity of every active
    member, the local node included, and nothing else: one entry per
    distinct identity, as many entries as members when the identities are
    distinct. *)
Theorem PutCommittee_seeds_every_member
    (n : Node) (D : CommitteeInfo.t) (id : Z) (state : StateAgentImpl) :
  CommitteeInfo.Id D = Some id →
  CommitteeInfo.Members D ≠ [] →
  services n !! Uint64 id = None →
  NewStateAgent (chainID n) (MakeValidators D)
    (Uint64 (CommitteeInfo.StartHeight D)) (Uint64 id) = Some state →
  ∃ svc,
    PutCommittee n D = (with_services n (<[Uint64 id := svc]> (services n)), None) ∧
    (∀ k, nodeTable svc !! k
          = if decide (k ∈ member_id <$> CommitteeInfo.Members D)
            then Some None else None) ∧
    (NoDup (member_id <$> CommitteeInfo.Members D) →
     size (nodeTable svc) = length (CommitteeInfo.Members D)).
Proof.
  intros Hid Hne Hfree Hstate.
  destruct (PutCommittee_accepts n D id state Hid Hne Hfree Hstate)
    as (svc & Hput & Htbl & _).
  exists svc. split; [exact Hput|]. rewrite Htbl. split.
  - intros k. rewrite seed_lookup. by case_decide.
  - intros Hnd. rewrite seed_size; [by rewrite map_size_empty | done |].
    intros m _. apply lookup_empty.
Qed.

(** C6, as amended. [makeCommitteeMembers] returns the nil map only for an
    empty member list; [PutCommittee] answers an empty member list with
    [wrong params] and leaves the registry as it is, so it never returns
    [make the nil CommitteeMembers]; and every descriptor it accepts, a
    committee of the local node alone included, is registered with a node
    table that is not empty. *)
Theorem PutCommittee_never_nil_members (n : Node) (D : CommitteeInfo.t) :
  (PutCommittee n D).2 ≠ errors_New "make the nil CommitteeMembers" ∧
  (∀ cid svc, makeCommitteeMembers cid (Some svc) D = None ↔ CommitteeInfo.Members D = []) ∧
  (CommitteeInfo.Members D = [] → PutCommittee n D = (n, errors_New "wrong params")) ∧
  (∀ id state,
     CommitteeInfo.Id D = Some id →
     CommitteeInfo.Members D ≠ [] →
     services n !! Uint64 id = None →
     NewStateAgent (chainID n) (MakeValidators D)
       (Uint64 (CommitteeInfo.StartHeight D)) (Uint64 id) = Some state →
     ∃ svc,
       PutCommittee n D = (with_services n (<[Uint64 id := svc]> (services n)), None) ∧
       nodeTable svc ≠ ∅).
Proof.
  split; [|split; [|split]].
  - unfold PutCommittee.
    destruct (CommitteeInfo.Id D) as [id|]; [|done].
    destruct (CommitteeInfo.Members D) as [|m ms] eqn:Hms; [done|].
    cbn [length Nat.leb].
    destruct (services n !! Uint64 id); [done|].
    destruct (NewStateAgent _ _ _ _) as [state|]; [|done].
    rewrite makeCommitteeMembers_seeds by (rewrite Hms; done). done.
  - intros cid svc. unfold makeCommitteeMembers.
    destruct (CommitteeInfo.Members D); [done|]. cbn [length Nat.leb]. split; done.
  - intros Hms. unfold PutCommittee. rewrite Hms.
    by destruct (CommitteeInfo.Id D).
  - intros id state Hid Hne Hfree Hstate.
    destruct (PutCommittee_accepts n D id state Hid Hne Hfree Hstate)
      as (svc & Hput & Htbl & _).
    exists svc. split; [exact Hput|]. intros Hempty.
    destruct (CommitteeInfo.Members D) as [|m ms] eqn:Hms; [done|].
    assert (nodeTable svc !! member_id m = Some None) as Hm.
    { rewrite Htbl, seed_lookup, decide_True; [done|]. apply list_elem_of_here. }
    rewrite Hempty, lookup_empty in Hm. discriminate.
Qed.

(** C7. A descriptor with an identifier that is not registered, a member
    and a state agent is registered by a first [PutCommittee]; a second
    [PutCommittee] of it returns the [repeat ID] error and leaves the
    registry as the first call left it, with its one service under the
    identifier. A descriptor without identifier or without member is
    answered with [wrong params] and the registry is left as it is. *)
Theorem PutCommittee_is_one_shot (n : Node) (D : CommitteeInfo.t) :
  (∀ id state,
     CommitteeInfo.Id D = Some id →
     CommitteeInfo.Members D ≠ [] →
     services n !! Uint64 id = None →
     NewStateAgent (chainID n) (MakeValidators D)
       (Uint64 (CommitteeInfo.StartHeight D)) (Uint64 id) = Some state →
     ∃ n1 svc,
       PutCommittee n D = (n1, None) ∧
       services n1 = <[Uint64 id := svc]> (services n) ∧
       PutCommittee n1 D = (n1, errors_New ("repeat ID:" +:+ big_String id)) ∧
       services n1 !! Uint64 id = Some svc ∧
       size (services n1) = S (size (services n))) ∧
  (CommitteeInfo.Id D = None ∨ CommitteeInfo.Members D = [] →
   PutCommittee n D = (n, errors_New "wrong params")).
Proof.
  split.
  - intros id state Hid Hne Hfree Hstate.
    destruct (PutCommittee_accepts n D id state Hid Hne Hfree Hstate)
      as (svc & Hput & _).
    eexists _, svc. split; [exact Hput|]. cbn [services with_services].
    split; [done|]. split; [|split].
    + unfold PutCommittee. rewrite Hid. cbn [services with_services].
      rewrite lookup_insert_eq.
      by destruct (CommitteeInfo.Members D).
    + apply lookup_insert_eq.
    + by apply map_size_insert_None.
  - intros [Hid|Hms]; unfold PutCommittee.
    + by rewrite Hid.
    + rewrite Hms. by destruct (CommitteeInfo.Id D).
Qed.
Lemma stop_fields s :
  sw (stop s) = sw s ++ [Switch_Stop] ∧
  nodeTable (stop s) = nodeTable s ∧
  consensusState (stop s) = consensusState s ∧
  sa (stop s) = sa s.
Proof. unfold stop. by destruct (IsRunning (sw s)). Qed.

(** [start] returns on a service whose consensus state and state agent
    are set. *)
Lemma start_returns s cid n cs agent :
  consensusState s = Some cs → sa s = Some agent →
  ∃ s' err, start s cid n = Done (s', err).
Proof.
  intros Hcs Hsa. unfold start.
  destruct (EventBus_Start_err (eventBus s)); [by eexists _, _|].
  cbn. rewrite Hcs, Hsa. unfold_outcome. cbn.
  destruct (Switch_Start_err _); by eexists _, _.
Qed.

(** [Notify(id, Start)] returns nil whatever [start] returns. *)
Lemma Notify_Start_returns_nil n id server cs agent :
  services n !! Uint64 id = Some server →
  consensusState server = Some cs → sa server = Some agent →
  ∃ s' err,
    start server id n = Done (s', err) ∧
    Notify n id Start = Done (with_services n (<[Uint64 id := s']> (services n)), None).
Proof.
  intros Hlook Hcs Hsa.
  destruct (start_returns server id n cs agent Hcs Hsa) as (s' & err & Hstart).
  exists s', err. split; [done|].
  unfold Notify. cbn. rewrite Hlook, Hcs, Hsa. unfold_outcome. by rewrite Hstart.
Qed.

Lemma Notify_absent_and_Stop_registry (n : Node) (id : Z) :
  (services n !! Uint64 id = None → Notify n id Stop = Done (n, None)) ∧
  (∀ server cs,
     services n !! Uint64 id = Some server →
     consensusState server = Some cs →
     ∃ n',
       Notify n id Stop = Done (n', None) ∧
       services n' = delete (Uint64 id) (services n) ∧
       services n' !! Uint64 id = None).
Proof.
  split.
  - intros Hnone. unfold Notify. cbn. by rewrite Hnone.
  - intros server cs Hlook Hcs.
    exists (retire (with_services n (delete (Uint64 id) (services n))) (stop server)).
    split; [|split; [done | apply lookup_delete_eq]].
    unfold Notify. cbn [Z.eqb Start Stop]. by rewrite Hlook, Hcs.
Qed.

Lemma stop_histories s :
  sw (stop s) = sw s ++ [Switch_Stop] ∧
  updateChan (stop s) = updateChan s ++ (if IsRunning (sw s) then [false] else []) ∧
  healthMgr (stop s)
  = healthMgr s ++ (if IsRunning (sw s) then [HealthMgr_OnStop] else []) ∧
  eventBus (stop s) = eventBus s ++ (if IsRunning (sw s) then [EventBus_Stop] else []) ∧
  nodeTable (stop s) = nodeTable s.
Proof.
  unfold stop. destruct (IsRunning (sw s)); cbn; by rewrite ?app_nil_r.
Qed.

(** C9. For an identifier that is not in the registry, [Notify(id, Stop)]
    returns nil and leaves the registry as it is, and [Notify(id, Start)]
    returns the [wrong conmmitt ID] error. For an identifier in the
    registry, [Notify(id, Stop)] returns nil, removes the identifier from
    the registry and stops its service: the switch receives [Stop], and, if
    the switch was running, the driver is sent its exit signal, the health
    manager receives [OnStop] and the event bus [Stop]; if it was not
    running these three are left alone; the node table is not touched. *)
Theorem Notify_absent_and_Stop (n : Node) (id : Z) :
  (services n !! Uint64 id = None →
   Notify n id Stop = Done (n, None) ∧
   Notify n id Start = Done (n, errors_New ("wrong conmmitt ID:" +:+ big_String id))) ∧
  (∀ server cs,
     services n !! Uint64 id = Some server →
     consensusState server = Some cs →
     ∃ n' stopped,
       Notify n id Stop = Done (n', None) ∧
       services n' = delete (Uint64 id) (services n) ∧
       services n' !! Uint64 id = None ∧
       retired n' = stopped :: retired n ∧
       sw stopped = sw server ++ [Switch_Stop] ∧
       updateChan stopped
       = updateChan server ++ (if IsRunning (sw server) then [false] else []) ∧
       healthMgr stopped
       = healthMgr server ++ (if IsRunning (sw server) then [HealthMgr_OnStop] else []) ∧
       eventBus stopped
       = eventBus server ++ (if IsRunning (sw server) then [EventBus_Stop] else []) ∧
       nodeTable stopped = nodeTable server).
Proof.
  split.
  - intros Hnone. unfold Notify. cbn. by rewrite Hnone.
  - intros server cs Hlook Hcs.
    destruct (stop_histories server) as (Hsw & Hchan & Hhealth & Hbus & Htbl).
    exists (retire (with_services n (delete (Uint64 id) (services n))) (stop server)),
           (stop server).
    split.
    { unfold Notify. cbn [Z.eqb Start Stop]. rewrite Hlook, Hcs. reflexivity. }
    split; [done|]. split; [apply lookup_delete_eq|]. split; [done|].
    by repeat split.
Qed.

Lemma GetCommitteeStatus_now n committeeID s cs :
  services n !! Uint64 committeeID = Some s →
  consensusState s = Some cs →
  ∃ result,
    GetCommitteeStatus n committeeID = Done result ∧
    result !! "committee_now"
    = Some (CommitteeView (Uint64 committeeID) (nodeTable s) (Some (size (nodeTable s)))).
Proof.
  intros Hlook Hcs. unfold GetCommitteeStatus, getCommittee, getNodeStatus.
  rewrite Hlook, Hcs. unfold_outcome.
  destruct (services n !! add64 (Uint64 committeeID) 1); eexists; (split; [reflexivity|]).
  - rewrite !lookup_insert_ne by done. apply lookup_insert_eq.
  - rewrite lookup_insert_ne by done. apply lookup_insert_eq.
Qed.

Lemma GetCommitteeStatus_absent n committeeID :
  services n !! Uint64 committeeID = None →
  ∃ result,
    GetCommitteeStatus n committeeID = Done result ∧
    result !! "committee_now" = None.
Proof.
  intros Hlook. unfold GetCommitteeStatus, getCommittee. rewrite Hlook.
  unfold_outcome.
  destruct (services n !! add64 (Uint64 committeeID) 1); eexists; (split; [reflexivity|]).
  - by rewrite lookup_insert_ne.
  - done.
Qed.

(** C10, as amended. When the update of the consensus state of a
    registered service answers with the stop signal, [UpdateCommittee] runs
    [stop] on the service, so that its switch receives [Stop], and returns
    nil; the service stays in the registry under its identifier, and a
    later [GetCommitteeStatus] for the identifier still lists it, with its
    node table, under [committee_now]. *)
Theorem UpdateCommittee_stop_keeps_registered
    (n : Node) (info : CommitteeInfo.t) (id : Z) (service0 : service)
    (cs cs' : ConsensusState) (agent' : option StateAgentImpl) :
  CommitteeInfo.Id info = Some id →
  services n !! Uint64 id = Some service0 →
  consensusState service0 = Some cs →
  UpdateValidatorSet cs (sa service0) info = (cs', agent', true) →
  ∃ n' service1 result,
    UpdateCommittee n info = Done (n', None) ∧
    services n' !! Uint64 id = Some service1 ∧
    sw service1 = sw service0 ++ [Switch_Stop] ∧
    GetCommitteeStatus n' id = Done result ∧
    result !! "committee_now"
    = Some (CommitteeView (Uint64 id) (nodeTable service0)
              (Some (size (nodeTable service0)))).
Proof.
  intros Hid Hlook Hcs Hupd. unfold UpdateCommittee.
  rewrite Hid. unfold_outcome. rewrite Hlook, Hcs, Hupd.
  set (mid := with_sa (with_consensusState service0 (Some cs')) agent').
  destruct (stop_fields mid) as (Hsw & Htbl & Hcs1 & _).
  set (service1 := with_healthMgr (signal (stop mid) true) _).
  set (n' := with_services n _).
  assert (services n' !! Uint64 id = Some service1) as Hreg
    by apply lookup_insert_eq.
  assert (nodeTable service1 = nodeTable service0) as Htbl1 by exact Htbl.
  assert (sw service1 = sw service0 ++ [Switch_Stop]) as Hsw1 by exact Hsw.
  assert (consensusState service1 = Some cs') as Hcs' by exact Hcs1.
  destruct (GetCommitteeStatus_now n' id service1 cs' Hreg Hcs') as (result & Hget & Hnow).
  rewrite Htbl1 in Hnow.
  by exists n', service1, result.
Qed.
End RegistryFacts.

Section RegistryRuns.
Import Toy.
#[local] Existing Instances Toy.crypto Toy.tbft Toy.net Toy.transport.

Lemma service_of_registered (n : Node) (cid : Z) :
  (if services n !! cid is Some _ then true else false) = true →
  services n !! cid = Some (service_of n cid).
Proof. unfold service_of. by destruct (services n !! cid). Defined.

Lemma PutCommittee_seeds_every_member_witness :
  ∃ svc,
    PutCommittee node0 committee7
    = (with_services node0 (<[Uint64 7 := svc]> (services node0)), None) ∧
    (∀ k, nodeTable svc !! k
          = if decide (k ∈ member_id <$> CommitteeInfo.Members committee7)
            then Some None else None) ∧
    (NoDup (member_id <$> CommitteeInfo.Members committee7) →
     size (nodeTable svc) = length (CommitteeInfo.Members committee7)).
Proof.
  apply (PutCommittee_seeds_every_member node0 committee7 7 agent7);
    [reflexivity | discriminate | reflexivity | reflexivity].
Defined.

(** C5, as stated, fails: committee 7 has three members, one of them the
    local node; it is accepted, and its node table has three placeholders,
    one of them under the identity of the local node. *)
Lemma PutCommittee_seeds_self_counterexample :
  ∃ svc,
    (PutCommittee node0 committee7).2 = None ∧
    services (PutCommittee node0 committee7).1 !! 7 = Some svc ∧
    size (nodeTable svc) = 3%nat ∧
    nodeTable svc !! member_id (member key_self) = Some None.
Proof.
  exists (service_of node7 7). repeat split; reflexivity.
Qed.

Lemma PutCommittee_never_nil_members_witness :
  ∃ svc,
    PutCommittee node0 committee9_self_only
    = (with_services node0 (<[Uint64 9 := svc]> (services node0)), None) ∧
    nodeTable svc ≠ ∅.
Proof.
  apply (proj2 (proj2 (proj2 (PutCommittee_never_nil_members node0 committee9_self_only)))
           9 agent9);
    [reflexivity | discriminate | reflexivity | reflexivity].
Defined.

(** C6, as stated, fails: committee 9 has the local node as its only
    member; it is accepted and registered, with one placeholder. *)
Lemma PutCommittee_self_only_counterexample :
  ∃ svc,
    CommitteeInfo.Members committee9_self_only = [member key_self] ∧
    PrivKeyTrue_PubKey (priv node0) = key_self ∧
    (PutCommittee node0 committee9_self_only).2 = None ∧
    services (PutCommittee node0 committee9_self_only).1 !! 9 = Some svc ∧
    size (nodeTable svc) = 1%nat.
Proof.
  exists (service_of node9 9). repeat split; reflexivity.
Qed.

Lemma PutCommittee_is_one_shot_witness :
  ∃ n1 svc,
    PutCommittee node0 committee7 = (n1, None) ∧
    services n1 = <[Uint64 7 := svc]> (services node0) ∧
    PutCommittee n1 committee7 = (n1, errors_New ("repeat ID:" +:+ big_String 7)) ∧
    services n1 !! Uint64 7 = Some svc ∧
    size (services n1) = S (size (services node0)).
Proof.
  apply (proj1 (PutCommittee_is_one_shot node0 committee7) 7 agent7);
    [reflexivity | discriminate | reflexivity | reflexivity].
Defined.

(** C8 fails on the code. Committee 7 is registered and its event bus, or
    its switch, refuses to start: [start] returns the error, and
    [Notify(7, Start)] returns nil. *)
Lemma Notify_Start_drops_start_error :
  returned (start (Tr := transport_bus_down) (service_of node7 7) 7 node7)
  = Some (Some "event bus: already started") ∧
  returned (Notify (Tr := transport_bus_down) node7 7 Start) = Some None ∧
  returned (start (Tr := transport_switch_down) (service_of node7 7) 7 node7)
  = Some (Some "switch: listener failed") ∧
  returned (Notify (Tr := transport_switch_down) node7 7 Start) = Some None.
Proof.
  repeat split; vm_compute; reflexivity.
Qed.

Lemma Notify_absent_and_Stop_witness :
  (Notify node0 7 Stop = Done (node0, None) ∧
   Notify node0 7 Start
   = Done (node0, errors_New ("wrong conmmitt ID:" +:+ big_String 7))) ∧
  IsRunning (sw (service_of node7_started 7)) = true ∧
  (∃ n' stopped,
     Notify node7_started 7 Stop = Done (n', None) ∧
     services n' = delete (Uint64 7) (services node7_started) ∧
     services n' !! Uint64 7 = None ∧
     retired n' = stopped :: retired node7_started ∧
     sw stopped = sw (service_of node7_started 7) ++ [Switch_Stop] ∧
     updateChan stopped
     = updateChan (service_of node7_started 7)
       ++ (if IsRunning (sw (service_of node7_started 7)) then [false] else []) ∧
     healthMgr stopped
     = healthMgr (service_of node7_started 7)
       ++ (if IsRunning (sw (service_of node7_started 7))
           then [HealthMgr_OnStop] else []) ∧
     eventBus stopped
     = eventBus (service_of node7_started 7)
       ++ (if IsRunning (sw (service_of node7_started 7)) then [EventBus_Stop] else []) ∧
     nodeTable stopped = nodeTable (service_of node7_started 7)).
Proof.
  split; [|split].
  - apply (proj1 (Notify_absent_and_Stop node0 7)). reflexivity.
  - vm_compute. reflexivity.
  - apply (proj2 (Notify_absent_and_Stop node7_started 7)
             (service_of node7_started 7) cons7_started);
      [apply service_of_registered; vm_compute; reflexivity | vm_compute; reflexivity].
Defined.

Lemma UpdateCommittee_stop_keeps_registered_witness :
  ∃ n' service1 result,
    UpdateCommittee node7_started committee7_without_self = Done (n', None) ∧
    services n' !! Uint64 7 = Some service1 ∧
    sw service1 = sw (service_of node7_started 7) ++ [Switch_Stop] ∧
    GetCommitteeStatus n' 7 = Done result ∧
    result !! "committee_now"
    = Some (CommitteeView (Uint64 7) (nodeTable (service_of node7_started 7))
              (Some (size (nodeTable (service_of node7_started 7))))).
Proof.
  apply (UpdateCommittee_stop_keeps_registered node7_started committee7_without_self 7
           (service_of node7_started 7) cons7_started
           (Build_Consensus 0 [key_a; key_b] (Some key_self))
           (Some (Build_Agent [key_a; key_b] (Some key_self) 0)));
    [reflexivity
    | apply service_of_registered; vm_compute; reflexivity
    | vm_compute; reflexivity
    | vm_compute; reflexivity].
Defined.

(** C10, as stated, fails: committee 7 is started and then updated with a
    descriptor without the local node; the consensus state answers with
    the stop signal and the switch of the service receives [Stop], yet
    [GetCommitteeStatus] for 7 still lists the committee under
    [committee_now]. *)
Lemma UpdateCommittee_stop_still_listed_counterexample :
  (UpdateValidatorSet cons7_started (Some agent7_started) committee7_without_self).2
  = true ∧
  returned (UpdateCommittee node7_started committee7_without_self) = Some None ∧
  last (sw (service_of node7_left 7)) = Some Switch_Stop ∧
  ∃ result,
    GetCommitteeStatus node7_left 7 = Done result ∧
    (λ v, match v with
          | CommitteeView id nodes cnt => (id, fst <$> map_to_list nodes, cnt)
          | NodeStatusView _ _ => (0, [], None)
          end) <$> result !! "committee_now"
    = Some (7, ["aa"; "bb"; "01"], Some 3%nat).
Proof.
  split; [reflexivity|]. split; [vm_compute; reflexivity|].
  split; [vm_compute; reflexivity|].
  destruct (GetCommitteeStatus_now node7_left 7 (service_of node7_left 7)
              (Build_Consensus 0 [key_a; key_b] (Some key_self)))
    as (result & Hget & Hnow); [vm_compute; reflexivity | vm_compute; reflexivity |].
  exists result. split; [exact Hget|]. rewrite Hnow. vm_compute. reflexivity.
Qed.
End RegistryRuns.

(** * Further properties of the code *)

(** ** Building a committee *)

Section ConstructionFacts.
Context `{Cr : Crypto} `{Tb : !Tbft} `{Nt : Net} `{Tr : !Transport}.

(** X1. [MakeValidators] returns nil exactly for a descriptor without
    identifier or without member; otherwise the validator set is built from
    one validator per member, in the order of the list, each with voting
    power 1, the first like the others. *)
Theorem MakeValidators_uniform_power (D : CommitteeInfo.t) :
  (CommitteeInfo.Id D = None ∨ CommitteeInfo.Members D = [] ↔ MakeValidators D = None) ∧
  (∀ id, CommitteeInfo.Id D = Some id → CommitteeInfo.Members D ≠ [] →
     MakeValidators D
     = Some (NewValidatorSet
               ((λ m, NewValidator (CommitteeMember.Publickey m) 1)
                  <$> CommitteeInfo.Members D))).
Proof.
  assert (∀ members : list CommitteeMember.t,
            imap (λ (i : nat) m,
                    let power := if (i =? 0)%nat then 1 else 1 in
                    NewValidator (CommitteeMember.Publickey m) power) members
            = (λ m, NewValidator (CommitteeMember.Publickey m) 1) <$> members) as Himap.
  { intros members. rewrite <- imap_const. apply imap_ext.
    intros i m _. cbn. by destruct (i =? 0)%nat. }
  unfold MakeValidators. split.
  - destruct (CommitteeInfo.Id D) as [id|]; [|by split; [|left]].
    destruct (CommitteeInfo.Members D) as [|m ms]; [by split; [|right]|].
    cbn [length Nat.leb]. split; [intros [?|?]; done | done].
  - intros id -> Hne.
    destruct (CommitteeInfo.Members D) as [|m ms] eqn:Hms; [done|].
    cbn [length Nat.leb]. by rewrite Himap.
Qed.

Lemma putWorkHealths_records n members hm :
  putWorkHealths n members hm
  = hm ++ flat_map (λ m, if is_self n m then []
                         else [PutWorkHealth (health_record StateUsedFlag m)]) members.
Proof.
  unfold putWorkHealths. revert hm.
  induction members as [|m ms IH]; intros hm; cbn [foldl flat_map].
  - by rewrite app_nil_r.
  - rewrite IH. unfold is_self at 2.
    destruct (PubKeyTrue_Equals _ _); [reflexivity|].
    by rewrite <- app_assoc.
Qed.

Lemma putBackHealths_records members hm :
  putBackHealths members hm
  = hm ++ ((λ m, PutBackHealth (health_record StateUnusedFlag m)) <$> members).
Proof.
  unfold putBackHealths. revert hm.
  induction members as [|m ms IH]; intros hm; cbn [foldl fmap list_fmap].
  - by rewrite app_nil_r.
  - rewrite IH. by rewrite <- app_assoc.
Qed.

(** X2. The health manager of a committee that [PutCommittee] registers has
    received, in this order: one work record for each active member that is
    not the local node and none for the local node, one backup record for
    each backup member, the local node included if it is among them, and
    [OnStart]. *)
Theorem PutCommittee_health_records
    (n : Node) (D : CommitteeInfo.t) (id : Z) (state : StateAgentImpl) :
  CommitteeInfo.Id D = Some id →
  CommitteeInfo.Members D ≠ [] →
  services n !! Uint64 id = None →
  NewStateAgent (chainID n) (MakeValidators D)
    (Uint64 (CommitteeInfo.StartHeight D)) (Uint64 id) = Some state →
  ∃ svc,
    (PutCommittee n D).2 = None ∧
    services (PutCommittee n D).1 !! Uint64 id = Some svc ∧
    healthMgr svc
    = flat_map (λ m, if is_self n m then []
                     else [PutWorkHealth (health_record StateUsedFlag m)])
               (CommitteeInfo.Members D)
      ++ ((λ m, PutBackHealth (health_record StateUnusedFlag m))
            <$> CommitteeInfo.BackMembers D)
      ++ [HealthMgr_OnStart].
Proof.
  intros Hid Hne Hfree Hstate. unfold PutCommittee.
  rewrite Hid, Hfree, Hstate.
  assert ((length (CommitteeInfo.Members D) <=? 0)%nat = false) as ->
    by (destruct (CommitteeInfo.Members D); [done | reflexivity]).
  rewrite makeCommitteeMembers_seeds by done.
  eexists. split; [reflexivity|]. cbn [fst services with_services].
  split; [apply lookup_insert_eq|].
  cbn. rewrite putBackHealths_records, putWorkHealths_records.
  cbn. by rewrite <- app_assoc.
Qed.

(** X3. The table of [makeCommitteeMembersForUpdateCommittee] holds a nil
    placeholder under the identity of every member or backup member whose
    flag is [StateUsedFlag], and no other key. *)
Theorem makeCommitteeMembersForUpdateCommittee_lookup (D : CommitteeInfo.t) (k : p2p_ID) :
  makeCommitteeMembersForUpdateCommittee D !! k
  = if decide (k ∈ member_id <$>
                   filter (λ m, flag_used m = true)
                     (CommitteeInfo.Members D ++ CommitteeInfo.BackMembers D))
    then Some None else None.
Proof.
  unfold makeCommitteeMembersForUpdateCommittee.
  assert (∀ (ms : list CommitteeMember.t) (tab : gmap string (option nodeInfo)),
            foldl (λ tab m,
                     match CommitteeMember.Flag m with
                     | StateUsedFlag => <[member_id m := None]> tab
                     | _ => tab
                     end) tab ms !! k
            = if decide (k ∈ member_id <$>
                             filter (λ m, flag_used m = true) ms)
              then Some None else tab !! k) as Hfold.
  { induction ms as [|m ms IH]; intros tab; cbn [foldl].
    - rewrite decide_False; [done|]. cbn. apply not_elem_of_nil.
    - rewrite IH. rewrite filter_cons.
      destruct (decide (flag_used m = true)) as [Hflag|Hflag].
      + assert (CommitteeMember.Flag m = StateUsedFlag) as ->
          by (unfold flag_used in Hflag; destruct (CommitteeMember.Flag m); done).
        cbn [fmap list_fmap].
        destruct (decide (k ∈ member_id <$> filter _ ms)) as [Hin|Hnin].
        * rewrite decide_True; [done | by apply list_elem_of_further].
        * destruct (decide (k = member_id m)) as [->|Hne].
          { rewrite decide_True by apply list_elem_of_here. apply lookup_insert_eq. }
          { rewrite decide_False; [by rewrite lookup_insert_ne|].
            intros [?|?]%elem_of_cons; done. }
      + assert (match CommitteeMember.Flag m with
                | StateUsedFlag => <[member_id m := None]> tab
                | _ => tab
                end = tab) as ->
          by (unfold flag_used in Hflag; destruct (CommitteeMember.Flag m); done).
        reflexivity. }
  rewrite Hfold. by rewrite lookup_empty.
Qed.
End ConstructionFacts.

(** ** Announcing endpoints *)

Section AnnouncementFacts.
Context `{Cr : Crypto} `{Tb : !Tbft} `{Nt : Net} `{Tr : !Transport}.

Lemma putNodes_visit_exact cid s update agent node :
  sa s = Some agent →
  ∃ s',
    putNodes_visit cid (s, update) node
    = Done (s', update || resolves (GetValidator agent) (nodeTable s) node) ∧
    sa s' = sa s ∧ consensusState s' = consensusState s ∧
    updateChan s' = updateChan s ∧
    (∀ id, nodeTable s' !! id
           = match nodeTable s !! id with
             | Some None =>
                 if announces (GetValidator agent) id node
                 then Some (Some (resolved_entry cid node id))
                 else Some None
             | o => o
             end) ∧
    (resolves (GetValidator agent) (nodeTable s) node = false →
     nodeTable s' = nodeTable s).
Proof.
  intros Hsa. unfold putNodes_visit, resolves, announces, authorised, derived_id.
  destruct (UnmarshalPubkey (CommitteeNode.Publickey node)) as [pub|].
  2:{ exists s. rewrite orb_false_r. repeat split; try done.
      intros id. by destruct (nodeTable s !! id) as [[?|]|]. }
  rewrite Hsa. unfold_outcome.
  destruct (HasAddress (GetValidator agent) (PubkeyToAddress pub)); cbn [negb andb].
  2:{ exists s. rewrite orb_false_r. repeat split; try done.
      intros id. by destruct (nodeTable s !! id) as [[?|]|]. }
  fold (port_of cid node).
  set (key := Hex.EncodeToString (PubkeyToAddress pub)).
  destruct (nodeTable s !! key) as [[old|]|] eqn:Hlook.
  - eexists. rewrite orb_false_r. split; [reflexivity|]. cbn.
    repeat split; try done. intros id.
    destruct (nodeTable s !! id) as [[?|]|] eqn:Hid; try done.
    case_bool_decide as Heq; [|done]. injection Heq as ->. congruence.
  - eexists. rewrite orb_true_r. split; [reflexivity|]. cbn.
    repeat split; try done. intros id.
    destruct (decide (key = id)) as [<-|Hne].
    + rewrite lookup_insert_eq, Hlook. by rewrite bool_decide_eq_true_2.
    + rewrite lookup_insert_ne by done.
      destruct (nodeTable s !! id) as [[?|]|]; try done.
      rewrite bool_decide_eq_false_2; [done | congruence].
  - eexists. rewrite orb_false_r. split; [reflexivity|]. cbn.
    repeat split; try done. intros id.
    destruct (nodeTable s !! id) as [[?|]|] eqn:Hid; try done.
    case_bool_decide as Heq; [|done]. injection Heq as ->. congruence.
Qed.

Lemma putNodes_range_exact cid nodes s update agent :
  sa s = Some agent →
  ∃ s',
    putNodes_range cid nodes (s, update)
    = Done (s', update || existsb (resolves (GetValidator agent) (nodeTable s)) nodes) ∧
    sa s' = sa s ∧ consensusState s' = consensusState s ∧
    updateChan s' = updateChan s ∧
    (∀ id, nodeTable s' !! id
           = match nodeTable s !! id with
             | Some None =>
                 match find (announces (GetValidator agent) id) nodes with
                 | Some node => Some (Some (resolved_entry cid node id))
                 | None => Some None
                 end
             | o => o
             end).
Proof.
  revert s update. induction nodes as [|node rest IH]; intros s update Hsa.
  - exists s. cbn. rewrite orb_false_r. repeat split; try done.
    intros id. by destruct (nodeTable s !! id) as [[?|]|].
  - destruct (putNodes_visit_exact cid s update agent node Hsa)
      as (s1 & Hv & Hsa1 & Hcs1 & Hch1 & Htbl1 & Hsame).
    destruct (IH s1 (update || resolves (GetValidator agent) (nodeTable s) node))
      as (s2 & Hr & Hsa2 & Hcs2 & Hch2 & Htbl2); [congruence|].
    exists s2. cbn [putNodes_range]. rewrite Hv. unfold_outcome. rewrite Hr.
    split; [|repeat split; try congruence].
    + f_equal. f_equal. cbn [existsb].
      destruct (resolves (GetValidator agent) (nodeTable s) node) eqn:Hres.
      * by rewrite !orb_true_r.
      * by rewrite (Hsame eq_refl), !orb_false_r.
    + intros id. rewrite Htbl2, Htbl1. cbn [find].
      destruct (nodeTable s !! id) as [[?|]|]; try done.
      by destruct (announces (GetValidator agent) id node).
Qed.

(** X4. On a service whose state agent and consensus state are set,
    [putNodes] returns, and the table it leaves is the table it found with,
    under every identity that held a nil placeholder, the endpoint of the
    first candidate of the batch that passes the checks and claims that
    identity: its declared IP, the port chosen by the parity of the
    committee identifier ([Port] when even, [Port2] when odd), the address
    built from them, the identity as [ID] and the connected flag off. A
    later candidate for the same identity in the same batch changes
    nothing, and no key is added or removed. *)
Theorem putNodes_first_announcement_wins
    (s : service) (agent : StateAgentImpl) (cs : ConsensusState)
    (cid : Z) (nodes : list CommitteeNode.t) :
  sa s = Some agent →
  consensusState s = Some cs →
  ∃ s',
    putNodes s cid nodes = Done s' ∧
    ∀ id, nodeTable s' !! id
          = match nodeTable s !! id with
            | Some None =>
                match find (announces (GetValidator agent) id) nodes with
                | Some node => Some (Some (resolved_entry cid node id))
                | None => Some None
                end
            | o => o
            end.
Proof.
  intros Hsa Hcs.
  destruct (putNodes_range_exact cid nodes s false agent Hsa)
    as (s1 & Hr & Hsa1 & Hcs1 & _ & Htbl).
  unfold putNodes. rewrite Hr. unfold_outcome.
  destruct (false || existsb _ nodes).
  - rewrite Hsa1, Hsa, Hcs1, Hcs.
    destruct (Priv agent) as [pv|]; [|by exists s1].
    destruct (HasAddress _ _); by eexists.
  - by exists s1.
Qed.

(** X5. [putNodes] sends the driver at most one signal: it appends [true]
    to the update channel exactly when some candidate of the batch passes
    the checks and claims an identity whose placeholder was nil, and the
    local node has a signing key whose address is in the validator set of
    the consensus state; otherwise the channel is left as it was. In
    particular a batch that resolves nothing, and any batch before [start]
    has set the signing key, sends no signal. *)
Theorem putNodes_signals_on_resolution
    (s : service) (agent : StateAgentImpl) (cs : ConsensusState)
    (cid : Z) (nodes : list CommitteeNode.t) :
  sa s = Some agent →
  consensusState s = Some cs →
  ∃ s',
    putNodes s cid nodes = Done s' ∧
    updateChan s'
    = updateChan s ++
      (if existsb (resolves (GetValidator agent) (nodeTable s)) nodes
          && local_member agent cs
       then [true] else []).
Proof.
  intros Hsa Hcs.
  destruct (putNodes_range_exact cid nodes s false agent Hsa)
    as (s1 & Hr & Hsa1 & Hcs1 & Hch1 & _).
  unfold putNodes. rewrite Hr. unfold_outcome. cbn [orb]. unfold local_member.
  destruct (existsb _ nodes); cbn [andb].
  - rewrite Hsa1, Hsa, Hcs1, Hcs.
    destruct (Priv agent) as [pv|].
    + destruct (HasAddress _ _); eexists; (split; [reflexivity|]); cbn.
      * by rewrite Hch1.
      * by rewrite Hch1, app_nil_r.
    + exists s1. split; [done|]. by rewrite Hch1, app_nil_r.
  - exists s1. split; [done|]. by rewrite Hch1, app_nil_r.
Qed.
End AnnouncementFacts.

(** ** Dialling *)

Section DiallingFacts.
Context `{Cr : Crypto} `{Tb : !Tbft} `{Nt : Net} `{Tr : !Transport}.

Lemma updateNodes_visit_entry s cs k node :
  consensusState s = Some cs →
  nodeTable s !! k = Some (Some node) →
  ∃ s',
    updateNodes_visit s k = Done s' ∧
    (nodeTable s' !! k = Some (Some node) ∨
     dial_due (Validators cs) (Some node) = true ∧
     nodeTable s' !! k = Some (Some (connected node))) ∧
    ((∀ calls addr, Dial_err calls addr true = None) →
     due_at (Validators cs) (nodeTable s') k = false).
Proof.
  intros Hcs Hk. unfold updateNodes_visit, due_at. rewrite Hk. unfold_outcome.
  cbn [dial_due].
  destruct (Enable node) eqn:Hen; cbn [negb andb].
  { exists s. split; [done|]. split; [by left|].
    intros _. rewrite Hk. cbn. by rewrite Hen. }
  destruct (Hex.DecodeString (ID node)) as [address|] eqn:Hdec.
  2:{ exists s. split; [done|]. split; [by left|].
      intros _. rewrite Hk. cbn. by rewrite Hen, Hdec. }
  rewrite Hcs.
  destruct (HasAddress (Validators cs) address) eqn:Hhas.
  2:{ exists s. split; [done|]. split; [by left|].
      intros _. rewrite Hk. cbn. by rewrite Hen, Hdec, Hhas. }
  exists (connTo s k node). split; [done|].
  unfold connTo. rewrite Hen.
  destruct (Dial_err (sw s) (Adrress node) true) as [e|] eqn:Hdial; cbn.
  - split; [by left|]. intros Hok. by rewrite Hok in Hdial.
  - rewrite lookup_insert_eq. split; [by right|]. done.
Qed.

Lemma updateNodes_pass_spec
    (order : list p2p_ID) (s : service) (cs : ConsensusState) :
  consensusState s = Some cs →
  NoDup order →
  (∀ k, k ∈ order → nodeTable s !! k ≠ Some None) →
  ∃ s',
    updateNodes order s = Done s' ∧
    sw s' = sw s ++ dials_of (Validators cs) (nodeTable s) order ∧
    consensusState s' = Some cs ∧
    (∀ k, nodeTable s !! k = None → nodeTable s' !! k = None) ∧
    (∀ k, k ∉ order → nodeTable s' !! k = nodeTable s !! k) ∧
    (∀ k node,
       nodeTable s !! k = Some (Some node) →
       nodeTable s' !! k = Some (Some node) ∨
       k ∈ order ∧ dial_due (Validators cs) (Some node) = true ∧
       nodeTable s' !! k = Some (Some (connected node))) ∧
    ((∀ calls addr, Dial_err calls addr true = None) →
     ∀ k, k ∈ order → due_at (Validators cs) (nodeTable s') k = false).
Proof.
  revert s. induction order as [|k rest IH]; intros s Hcs Hnd Hres.
  - exists s. cbn. rewrite app_nil_r. repeat split; try done.
    + intros k node Hk. by left.
    + intros _ k Hin. by apply elem_of_nil in Hin.
  - apply NoDup_cons in Hnd as [Hk Hnd].
    destruct (updateNodes_visit_spec s cs k Hcs) as (s1 & Hv & Hcs1 & Hother & Hsw1).
    { apply Hres, list_elem_of_here. }
    assert (Hrest : ∀ k', k' ∈ rest → nodeTable s1 !! k' = nodeTable s !! k').
    { intros k' Hin. apply Hother. intros ->. done. }
    destruct (IH s1 Hcs1 Hnd)
      as (s2 & Hr & Hsw2 & Hcs2 & Hnone2 & Hout2 & Hent2 & Hdone2).
    { intros k' Hin. rewrite Hrest by done. by apply Hres, list_elem_of_further. }
    assert (Hkk : ∀ node, nodeTable s !! k = Some (Some node) →
              (nodeTable s1 !! k = Some (Some node) ∨
               dial_due (Validators cs) (Some node) = true ∧
               nodeTable s1 !! k = Some (Some (connected node))) ∧
              ((∀ calls addr, Dial_err calls addr true = None) →
               due_at (Validators cs) (nodeTable s1) k = false)).
    { intros node Hnode.
      destruct (updateNodes_visit_entry s cs k node Hcs Hnode) as (s1' & Hv' & Hor & Hd).
      rewrite Hv in Hv'. injection Hv' as <-. done. }
    assert (Hknone : nodeTable s !! k = None → nodeTable s1 = nodeTable s).
    { intros Hnone. unfold updateNodes_visit in Hv. rewrite Hnone in Hv.
      by injection Hv as <-. }
    exists s2. cbn [updateNodes]. rewrite Hv. unfold_outcome.
    split; [done|]. split; [|split; [done|split; [|split; [|split]]]].
    + rewrite Hsw2, Hsw1, <- app_assoc. f_equal.
      rewrite (dials_of_agree _ (nodeTable s) (nodeTable s1) rest Hrest).
      unfold dials_of. cbn [flat_map]. by rewrite app_nil_r.
    + intros k' Hnone. apply Hnone2.
      destruct (decide (k' = k)) as [->|Hne]; [by rewrite Hknone|].
      by rewrite Hother.
    + intros k' Hnin. apply not_elem_of_cons in Hnin as [Hne Hnin].
      rewrite Hout2 by done. by apply Hother.
    + intros k' node Hnode. destruct (decide (k' = k)) as [->|Hne].
      * rewrite (Hout2 k Hk).
        destruct (Hkk node Hnode) as [[Hsame | [Hdue Hconn]] _]; [by left|].
        right. split; [apply list_elem_of_here | done].
      * rewrite <- (Hother k' Hne) in Hnode.
        destruct (Hent2 k' node Hnode) as [Hsame | (Hin & Hdue & Hconn)]; [by left|].
        right. split; [by apply list_elem_of_further | done].
    + intros Hok k' Hin. apply elem_of_cons in Hin as [->|Hin].
      * unfold due_at. rewrite (Hout2 k Hk).
        destruct (nodeTable s !! k) as [[node|]|] eqn:Hlook.
        { by apply (Hkk node). }
        { exfalso. by apply (Hres k); [apply list_elem_of_here|]. }
        { by rewrite (Hknone eq_refl), Hlook. }
      * by apply Hdone2.
Qed.

(** X6. On a table without nil records, with the consensus state set, a
    pass of [updateNodes] returns; the switch receives exactly one dial for
    each entry that is not connected and whose identity decodes to an
    address of the validator set, in the order of the range, and no other
    call; every entry keeps its identity, address, IP and port; its
    connected flag changes only from off to on, and only for an entry that
    was dialled; no key is added or removed. *)
Theorem updateNodes_pass_on_resolved
    (order : list p2p_ID) (s : service) (cs : ConsensusState) :
  consensusState s = Some cs →
  NoDup order →
  (∀ k, k ∈ order → nodeTable s !! k ≠ Some None) →
  ∃ s',
    updateNodes order s = Done s' ∧
    sw s' = sw s ++ dials_of (Validators cs) (nodeTable s) order ∧
    consensusState s' = Some cs ∧
    (∀ k, nodeTable s !! k = None → nodeTable s' !! k = None) ∧
    (∀ k, k ∉ order → nodeTable s' !! k = nodeTable s !! k) ∧
    (∀ k node,
       nodeTable s !! k = Some (Some node) →
       nodeTable s' !! k = Some (Some node) ∨
       k ∈ order ∧ dial_due (Validators cs) (Some node) = true ∧
       nodeTable s' !! k = Some (Some (connected node))) ∧
    ((∀ calls addr, Dial_err calls addr true = None) →
     ∀ k, k ∈ order → due_at (Validators cs) (nodeTable s') k = false).
Proof.
  intros Hcs Hnd Hres.
  destruct (updateNodes_pass_spec order s cs Hcs Hnd Hres)
    as (s' & Hrun & Hsw & Hcs' & Hnone & Hout & Hent & Hdue).
  exists s'. split; [exact Hrun|]. split; [exact Hsw|]. split; [exact Hcs'|].
  split; [exact Hnone|]. split; [exact Hout|]. split; [exact Hent | exact Hdue].
Qed.

Lemma dials_of_none V (tbl : gmap string (option nodeInfo)) order :
  (∀ k, k ∈ order → due_at V tbl k = false) →
  dials_of V tbl order = [].
Proof.
  intros Hdue. unfold dials_of.
  induction order as [|k rest IH]; [done|]. cbn [flat_map].
  rewrite IH by (intros k' Hin; by apply Hdue, list_elem_of_further).
  specialize (Hdue k (list_elem_of_here _ _)). unfold due_at in Hdue.
  destruct (tbl !! k) as [[node|]|]; try done.
  change (dial_due V (Some node) = false) in Hdue.
  by rewrite Hdue.
Qed.

(** X7. With a switch on which every dial succeeds, a second pass of
    [updateNodes] over the same table, in whatever order the runtime
    ranges this time, makes no call on the switch and leaves the table as
    the first pass left it: what the first pass dialled is connected, and a
    connected entry is not dialled again. *)
Theorem updateNodes_second_pass_silent
    (order order2 : list p2p_ID) (s : service) (cs : ConsensusState) :
  consensusState s = Some cs →
  NoDup order →
  (∀ k, k ∈ order → nodeTable s !! k ≠ Some None) →
  order2 ≡ₚ order →
  (∀ calls addr, Dial_err calls addr true = None) →
  ∃ s1 s2,
    updateNodes order s = Done s1 ∧
    updateNodes order2 s1 = Done s2 ∧
    sw s2 = sw s1 ∧
    nodeTable s2 = nodeTable s1.
Proof.
  intros Hcs Hnd Hres Hperm Hok.
  destruct (updateNodes_pass_spec order s cs Hcs Hnd Hres)
    as (s1 & Hr1 & _ & Hcs1 & Hnone1 & _ & Hent1 & Hdone1).
  assert (Hnd2 : NoDup order2) by (by rewrite Hperm).
  assert (Hres1 : ∀ k, k ∈ order2 → nodeTable s1 !! k ≠ Some None).
  { intros k Hin Hnil. rewrite Hperm in Hin.
    destruct (nodeTable s !! k) as [[node|]|] eqn:Hlook.
    - destruct (Hent1 k node Hlook) as [?|(_ & _ & ?)]; congruence.
    - by apply (Hres k).
    - rewrite (Hnone1 k Hlook) in Hnil. discriminate. }
  assert (Hdone2 : ∀ k, k ∈ order2 → due_at (Validators cs) (nodeTable s1) k = false).
  { intros k Hin. rewrite Hperm in Hin. by apply Hdone1. }
  destruct (updateNodes_pass_spec order2 s1 cs Hcs1 Hnd2 Hres1)
    as (s2 & Hr2 & Hsw2 & _ & Hnone2 & Hout2 & Hent2 & _).
  exists s1, s2. repeat split; try done.
  - by rewrite Hsw2, (dials_of_none _ _ _ Hdone2), app_nil_r.
  - apply map_eq. intros k.
    destruct (decide (k ∈ order2)) as [Hin|Hnin]; [|by apply Hout2].
    destruct (nodeTable s1 !! k) as [[node|]|] eqn:Hlook.
    + destruct (Hent2 k node Hlook) as [Hsame | (_ & Hdue & _)]; [done|].
      pose proof (Hdone2 k Hin) as Hnot. unfold due_at in Hnot.
      rewrite Hlook in Hnot.
      change (dial_due (Validators cs) (Some node) = false) in Hnot. congruence.
    + by destruct (Hres1 k Hin).
    + by apply Hnone2.
Qed.

(** X8. An entry that [putNodes] writes for a candidate is owed a dial by
    [updateNodes] exactly when the address of the candidate's key is in the
    validator set: the identity stored as a hex string decodes back to the
    address it was made from. *)
Theorem resolved_entry_is_due
    (V : ValidatorSet) (cid : Z) (node : CommitteeNode.t) (pub : PublicKey) :
  UnmarshalPubkey (CommitteeNode.Publickey node) = Some pub →
  derived_id node = Some (Hex.EncodeToString (PubkeyToAddress pub)) ∧
  dial_due V (Some (resolved_entry cid node (Hex.EncodeToString (PubkeyToAddress pub))))
  = HasAddress V (PubkeyToAddress pub).
Proof.
  intros Hpub. split.
  - unfold derived_id. by rewrite Hpub.
  - unfold dial_due, resolved_entry. cbn [ID Enable negb andb].
    by rewrite HexFacts.DecodeString_EncodeToString.
Qed.
End DiallingFacts.

(** ** The registry as a whole *)

Section RegistryInvariants.
Context `{Cr : Crypto} `{Tb : !Tbft} `{Nt : Net} `{Tr : !Transport}.

Lemma PutNodes_services n id nodes n' e :
  PutNodes n (Some id) nodes = Done (n', e) →
  services n' = services n ∨
  ∃ server server', services n !! Uint64 id = Some server ∧
                    services n' = <[Uint64 id := server']> (services n).
Proof.
  unfold PutNodes. intros Hop.
  destruct (length nodes <=? 0)%nat; [injection Hop as <- <-; by left|].
  destruct (services n !! Uint64 id) as [server|] eqn:Hlook;
    [|injection Hop as <- <-; by left].
  destruct (putNodes server id nodes) as [server'|]; [|discriminate].
  injection Hop as <- <-. right. by exists server, server'.
Qed.

Lemma Notify_services n id action n' e :
  Notify n id action = Done (n', e) →
  services n' = services n ∨
  services n' = delete (Uint64 id) (services n) ∨
  ∃ server server', services n !! Uint64 id = Some server ∧
                    services n' = <[Uint64 id := server']> (services n).
Proof.
  unfold Notify. intros Hop.
  destruct (action =? Start).
  { destruct (services n !! Uint64 id) as [server|] eqn:Hlook;
      [|injection Hop as <- <-; by left].
    destruct (consensusState server); [|discriminate].
    destruct (sa server); [|discriminate]. unfold_outcome.
    destruct (start server id n) as [started|]; [|discriminate].
    injection Hop as <- <-. right. right. by eexists _, _. }
  destruct (action =? Stop).
  { destruct (services n !! Uint64 id) as [server|] eqn:Hlook;
      [|injection Hop as <- <-; by left].
    destruct (consensusState server); [|discriminate].
    injection Hop as <- <-. right. by left. }
  destruct (action =? Switch); injection Hop as <- <-; by left.
Qed.

Lemma UpdateCommittee_services n D id n' e :
  CommitteeInfo.Id D = Some id →
  UpdateCommittee n D = Done (n', e) →
  services n' = services n ∨
  ∃ server server', services n !! Uint64 id = Some server ∧
                    services n' = <[Uint64 id := server']> (services n).
Proof.
  unfold UpdateCommittee. intros -> Hop. unfold_outcome.
  destruct (services n !! Uint64 id) as [server|] eqn:Hlook;
    [|injection Hop as <- <-; by left].
  destruct (consensusState server) as [cs|]; [|discriminate].
  destruct (UpdateValidatorSet cs (sa server) D) as [[cs' agent'] stopped].
  injection Hop as <- <-. right. by eexists _, _.
Qed.

Lemma SetCommitteeStop_services n id h n' e :
  SetCommitteeStop n id h = Done (n', e) →
  services n' = services n ∨
  ∃ server server', services n !! Uint64 id = Some server ∧
                    services n' = <[Uint64 id := server']> (services n).
Proof.
  unfold SetCommitteeStop, getStateAgent. intros Hop.
  destruct (services n !! Uint64 id) as [server|] eqn:Hlook;
    [|injection Hop as <- <-; by left].
  destruct (sa server); [|discriminate].
  injection Hop as <- <-. right. by eexists _, _.
Qed.

(** X9. A call for one committee leaves the services of all the others as
    they were: whatever [PutCommittee], [PutNodes], [Notify],
    [UpdateCommittee] and [SetCommitteeStop] do for the identifier [id],
    the registry holds under every other key what it held before. *)
Theorem registry_calls_are_local (n : Node) (id k : Z) :
  k ≠ Uint64 id →
  (∀ D, CommitteeInfo.Id D = Some id →
        services (PutCommittee n D).1 !! k = services n !! k) ∧
  (∀ nodes n' e, PutNodes n (Some id) nodes = Done (n', e) →
                 services n' !! k = services n !! k) ∧
  (∀ action n' e, Notify n id action = Done (n', e) →
                  services n' !! k = services n !! k) ∧
  (∀ D n' e, CommitteeInfo.Id D = Some id → UpdateCommittee n D = Done (n', e) →
             services n' !! k = services n !! k) ∧
  (∀ h n' e, SetCommitteeStop n id h = Done (n', e) →
             services n' !! k = services n !! k).
Proof.
  intros Hk. split; [|split; [|split; [|split]]].
  - intros D Hid. unfold PutCommittee. rewrite Hid.
    destruct (length (CommitteeInfo.Members D) <=? 0)%nat; [done|].
    destruct (services n !! Uint64 id); [done|].
    destruct (NewStateAgent _ _ _ _); [|done].
    destruct (makeCommitteeMembers _ _ _); cbn; [|done].
    by rewrite lookup_insert_ne.
  - intros nodes n' e Hop.
    destruct (PutNodes_services n id nodes n' e Hop) as [-> | (? & ? & _ & ->)];
      [done | by rewrite lookup_insert_ne].
  - intros action n' e Hop.
    destruct (Notify_services n id action n' e Hop)
      as [-> | [-> | (? & ? & _ & ->)]];
      [done | by rewrite lookup_delete_ne | by rewrite lookup_insert_ne].
  - intros D n' e Hid Hop.
    destruct (UpdateCommittee_services n D id n' e Hid Hop) as [-> | (? & ? & _ & ->)];
      [done | by rewrite lookup_insert_ne].
  - intros h n' e Hop.
    destruct (SetCommitteeStop_services n id h n' e Hop) as [-> | (? & ? & _ & ->)];
      [done | by rewrite lookup_insert_ne].
Qed.

(** X10. Only [PutCommittee] adds a committee and only [Notify] with
    [Stop] removes one: after [PutNodes], [UpdateCommittee],
    [SetCommitteeStop] and [Notify] with any other action the registry has
    the keys it had, and [PutCommittee] removes none. *)
Theorem registry_keys_are_stable (n : Node) (k : Z) :
  (∀ id nodes n' e, PutNodes n id nodes = Done (n', e) →
     (is_Some (services n' !! k) ↔ is_Some (services n !! k))) ∧
  (∀ D n' e, UpdateCommittee n D = Done (n', e) →
     (is_Some (services n' !! k) ↔ is_Some (services n !! k))) ∧
  (∀ id h n' e, SetCommitteeStop n id h = Done (n', e) →
     (is_Some (services n' !! k) ↔ is_Some (services n !! k))) ∧
  (∀ id action n' e, action ≠ Stop → Notify n id action = Done (n', e) →
     (is_Some (services n' !! k) ↔ is_Some (services n !! k))) ∧
  (∀ D, is_Some (services n !! k) → is_Some (services (PutCommittee n D).1 !! k)).
Proof.
  assert (Hins : ∀ (m : gmap Z service) key server server',
            m !! key = Some server →
            (is_Some (<[key := server']> m !! k) ↔ is_Some (m !! k))).
  { intros m key server server' Hlook. destruct (decide (key = k)) as [->|Hne].
    - rewrite lookup_insert_eq, Hlook. split; eauto.
    - by rewrite lookup_insert_ne. }
  split; [|split; [|split; [|split]]].
  - intros [id|] nodes n' e Hop; [|by injection Hop as <- <-].
    destruct (PutNodes_services n id nodes n' e Hop) as [-> | (? & ? & Hl & ->)];
      [done | by eapply Hins].
  - intros D n' e Hop. destruct (CommitteeInfo.Id D) as [id|] eqn:Hid.
    + destruct (UpdateCommittee_services n D id n' e Hid Hop)
        as [-> | (? & ? & Hl & ->)]; [done | by eapply Hins].
    + unfold UpdateCommittee in Hop. rewrite Hid in Hop. discriminate.
  - intros id h n' e Hop.
    destruct (SetCommitteeStop_services n id h n' e Hop) as [-> | (? & ? & Hl & ->)];
      [done | by eapply Hins].
  - intros id action n' e Hact Hop. unfold Notify in Hop.
    destruct (action =? Start) eqn:Hstart.
    + destruct (services n !! Uint64 id) as [server|] eqn:Hlook;
        [|by injection Hop as <- <-].
      destruct (consensusState server); [|discriminate].
      destruct (sa server); [|discriminate]. unfold_outcome.
      destruct (start server id n) as [started|]; [|discriminate].
      injection Hop as <- <-. by eapply Hins.
    + destruct (action =? Stop) eqn:Hstop.
      { apply Z.eqb_eq in Hstop. done. }
      destruct (action =? Switch); by injection Hop as <- <-.
  - intros D Hsome. unfold PutCommittee.
    destruct (CommitteeInfo.Id D) as [id|]; [|done].
    destruct (length (CommitteeInfo.Members D) <=? 0)%nat; [done|].
    destruct (services n !! Uint64 id) eqn:Hlook; [done|].
    destruct (NewStateAgent _ _ _ _); [|done].
    destruct (makeCommitteeMembers _ _ _); cbn; [|done].
    destruct (decide (Uint64 id = k)) as [Heq|Hne].
    + rewrite <- Heq, Hlook in Hsome. by destruct Hsome.
    + by rewrite lookup_insert_ne.
Qed.

(** X11. Registering a committee and stopping it gives back the registry
    as it was: after an accepted [PutCommittee], [Notify] with [Stop]
    returns nil and leaves the services the registry had before the
    committee was put; a second [Stop] returns nil and changes nothing; and
    the descriptor can then be put again. *)
Theorem PutCommittee_then_Stop
    (n : Node) (D : CommitteeInfo.t) (id : Z) (state : StateAgentImpl) :
  CommitteeInfo.Id D = Some id →
  CommitteeInfo.Members D ≠ [] →
  services n !! Uint64 id = None →
  NewStateAgent (chainID n) (MakeValidators D)
    (Uint64 (CommitteeInfo.StartHeight D)) (Uint64 id) = Some state →
  ∃ n2,
    Notify (PutCommittee n D).1 id Stop = Done (n2, None) ∧
    services n2 = services n ∧
    Notify n2 id Stop = Done (n2, None) ∧
    (PutCommittee n2 D).2 = None ∧
    is_Some (services (PutCommittee n2 D).1 !! Uint64 id).
Proof.
  intros Hid Hne Hfree Hstate.
  destruct (PutCommittee_accepts n D id state Hid Hne Hfree Hstate)
    as (svc & Hput & _ & Hcs & _).
  rewrite Hput. cbn [fst].
  set (n1 := with_services n _).
  assert (services n1 !! Uint64 id = Some svc) as Hreg by apply lookup_insert_eq.
  destruct (proj2 (Notify_absent_and_Stop_registry n1 id) svc _ Hreg Hcs)
    as (n2 & Hstop & Hdel & Hgone).
  assert (services n2 = services n) as Hback.
  { rewrite Hdel. subst n1. cbn. by apply delete_insert_id. }
  exists n2. split; [done|]. split; [done|]. split.
  - unfold Notify. cbn [Z.eqb Start Stop]. by rewrite Hgone.
  - assert (chainID n2 = chainID n) as Hchain.
    { unfold Notify in Hstop. cbn [Z.eqb Start Stop] in Hstop.
      rewrite Hreg, Hcs in Hstop. by injection Hstop as <-. }
    destruct (PutCommittee_accepts n2 D id state Hid Hne) as (svc2 & Hput2 & _).
    + by rewrite Hback.
    + by rewrite Hchain.
    + rewrite Hput2. cbn. split; [done|]. rewrite lookup_insert_eq. eauto.
Qed.
End RegistryInvariants.

(** ** Commands and status *)

Section CommandFacts.
Context `{Cr : Crypto} `{Tb : !Tbft} `{Nt : Net} `{Tr : !Transport}.

(** X12. [GetCommitteeStatus] returns whenever the committee asked for, if
    registered, has its consensus state. Its result has [committee_now],
    with the node table and its size, and [nodeStatus] exactly when the
    committee is registered, and [committee_next], with the node table and
    no size, exactly when the committee under the next [uint64] key is
    registered, whether or not the first is. *)
Theorem GetCommitteeStatus_sections (n : Node) (committeeID : Z) :
  (∀ s, services n !! Uint64 committeeID = Some s → is_Some (consensusState s)) →
  ∃ result,
    GetCommitteeStatus n committeeID = Done result ∧
    result !! "committee_now"
    = (λ s, CommitteeView (Uint64 committeeID) (nodeTable s) (Some (size (nodeTable s))))
        <$> services n !! Uint64 committeeID ∧
    result !! "committee_next"
    = (λ s1, CommitteeView (add64 (Uint64 committeeID) 1) (nodeTable s1) None)
        <$> services n !! add64 (Uint64 committeeID) 1 ∧
    (is_Some (result !! "nodeStatus") ↔ is_Some (services n !! Uint64 committeeID)).
Proof.
  intros Hwired. unfold GetCommitteeStatus, getCommittee, getNodeStatus.
  destruct (services n !! Uint64 committeeID) as [s|] eqn:Hnow.
  - destruct (Hwired s eq_refl) as [cs Hcs]. rewrite Hcs. unfold_outcome.
    destruct (services n !! add64 (Uint64 committeeID) 1) as [s1|];
      eexists; (split; [reflexivity|]); cbn [fmap option_fmap option_map];
      repeat first [rewrite lookup_insert_eq
                   | rewrite lookup_insert_ne by done
                   | rewrite lookup_empty];
      repeat split; eauto.
  - unfold_outcome.
    destruct (services n !! add64 (Uint64 committeeID) 1) as [s1|];
      eexists; (split; [reflexivity|]); cbn [fmap option_fmap option_map];
      repeat first [rewrite lookup_insert_eq
                   | rewrite lookup_insert_ne by done
                   | rewrite lookup_empty];
      repeat split; eauto; by intros [? ?].
Qed.

(** X13. A command for a committee that is not registered leaves the
    registry as it is and, [Notify] with [Stop] or [Switch] apart, returns
    an error: [PutNodes] the [wrong ID] error, [UpdateCommittee]
    [service not found], [SetCommitteeStop] the [wrong conmmitt ID] error;
    [PutNodes] without identifier or with an empty batch returns
    [wrong params] before it looks the committee up. *)
Theorem unknown_committee_is_reported (n : Node) (id : Z) :
  services n !! Uint64 id = None →
  (∀ nodes, nodes ≠ [] →
     PutNodes n (Some id) nodes = Done (n, errors_New ("wrong ID:" +:+ big_String id))) ∧
  (∀ D, CommitteeInfo.Id D = Some id →
     UpdateCommittee n D = Done (n, errors_New "service not found")) ∧
  (∀ h, SetCommitteeStop n id h
        = Done (n, errors_New ("wrong conmmitt ID:" +:+ big_String id))) ∧
  Notify n id Switch = Done (n, None) ∧
  (∀ nodes, PutNodes n None nodes = Done (n, errors_New "wrong params")) ∧
  (∀ id', PutNodes n id' [] = Done (n, errors_New "wrong params")).
Proof.
  intros Hnone. repeat split.
  - intros nodes Hne. unfold PutNodes. rewrite Hnone. by destruct nodes.
  - intros D Hid. unfold UpdateCommittee. rewrite Hid. unfold_outcome. by rewrite Hnone.
  - intros h. unfold SetCommitteeStop. by rewrite Hnone.
  - intros [id'|]; reflexivity.
Qed.

(** X14. Putting a committee and then announcing the endpoint of one of
    its members resolves that member and no other: when the key of the
    candidate unmarshals to a key with the address of the member, and the
    validator set of the state agent has that address, [PutNodes] returns
    nil, the entry of the member holds the endpoint of the candidate, and
    every other key of the table holds what [PutCommittee] seeded. *)
Theorem PutCommittee_then_PutNodes
    (n : Node) (D : CommitteeInfo.t) (id : Z) (state : StateAgentImpl)
    (m : CommitteeMember.t) (node : CommitteeNode.t) (pub : PublicKey) :
  CommitteeInfo.Id D = Some id →
  CommitteeInfo.Members D ≠ [] →
  services n !! Uint64 id = None →
  NewStateAgent (chainID n) (MakeValidators D)
    (Uint64 (CommitteeInfo.StartHeight D)) (Uint64 id) = Some state →
  m ∈ CommitteeInfo.Members D →
  UnmarshalPubkey (CommitteeNode.Publickey node) = Some pub →
  PubkeyToAddress pub = PubKeyTrue_Address (CommitteeMember.Publickey m) →
  HasAddress (GetValidator state) (PubkeyToAddress pub) = true →
  ∃ n2 svc2,
    PutNodes (PutCommittee n D).1 (Some id) [node] = Done (n2, None) ∧
    services n2 !! Uint64 id = Some svc2 ∧
    nodeTable svc2 !! member_id m = Some (Some (resolved_entry id node (member_id m))) ∧
    (∀ k, k ≠ member_id m →
       nodeTable svc2 !! k
       = if decide (k ∈ member_id <$> CommitteeInfo.Members D)
         then Some None else None).
Proof.
  intros Hid Hne Hfree Hstate Hm Hpub Haddr Hhas.
  destruct (PutCommittee_accepts n D id state Hid Hne Hfree Hstate)
    as (svc & Hput & Htbl & Hcs & Hsa).
  rewrite Hput. cbn [fst]. unfold PutNodes. cbn [length Nat.leb services with_services].
  rewrite lookup_insert_eq.
  destruct (putNodes_range_exact id [node] svc false state Hsa)
    as (s1 & Hr & Hsa1 & Hcs1 & _ & Hlook).
  assert (∃ svc2, putNodes svc id [node] = Done svc2 ∧ nodeTable svc2 = nodeTable s1)
    as (svc2 & Hp & Htbl2).
  { unfold putNodes. rewrite Hr. unfold_outcome.
    destruct (false || existsb _ [node]); [|by exists s1].
    rewrite Hsa1, Hsa, Hcs1, Hcs.
    destruct (Priv state) as [pv|]; [|by exists s1].
    destruct (HasAddress (Validators _) _);
      [exists (signal s1 true) | exists s1]; by split. }
  rewrite Hp. unfold_outcome. eexists _, svc2. split; [reflexivity|].
  cbn [services with_services]. split; [apply lookup_insert_eq|].
  assert (Hder : derived_id node = Some (member_id m)).
  { unfold derived_id, member_id. by rewrite Hpub, Haddr. }
  assert (Hauth : authorised (GetValidator state) node = true).
  { unfold authorised. by rewrite Hpub. }
  rewrite Htbl2. split.
  - rewrite Hlook, Htbl, seed_lookup.
    rewrite decide_True by (by apply list_elem_of_fmap_2).
    cbn [find]. unfold announces. rewrite Hauth, Hder.
    by rewrite bool_decide_eq_true_2.
  - intros k Hk. rewrite Hlook, Htbl, seed_lookup.
    case_decide; [|by rewrite lookup_empty].
    cbn [find]. unfold announces. rewrite Hauth, Hder.
    rewrite bool_decide_eq_false_2; [done | congruence].
Qed.


(** X16. On a service whose consensus state and state agent are set,
    [start] returns the error of the event bus if it has one, else the
    error of the switch. It launches one driver when it returns nil and
    none otherwise; when the event bus fails nothing but the event bus has
    been called; the listener is the first listen address for an even
    committee identifier and the second for an odd one; the node table, the
    update channel and the health manager are not touched. *)
Theorem start_launches_driver_on_success
    (s : service) (cid : Z) (n : Node) (cs : ConsensusState) (agent : StateAgentImpl) :
  consensusState s = Some cs →
  sa s = Some agent →
  ∃ s' err,
    start s cid n = Done (s', err) ∧
    drivers s' = (if err is None then S (drivers s) else drivers s) ∧
    nodeTable s' = nodeTable s ∧ updateChan s' = updateChan s ∧
    healthMgr s' = healthMgr s ∧
    eventBus s' = eventBus s ++ [EventBus_Start] ∧
    match EventBus_Start_err (eventBus s) with
    | Some e =>
        err = Some e ∧ sw s' = sw s ∧ addrBook s' = addrBook s ∧
        consensusState s' = Some cs ∧ sa s' = Some agent
    | None =>
        let lstr := if even_cid cid then ListenAddress1 (config n)
                    else ListenAddress2 (config n) in
        ∃ ni, sw s' = sw s ++ [SetNodeInfo ni; SetNodeKey;
                               AddListener lstr (ExternalAddress (config n)) (UPNP (config n));
                               Switch_Start] ∧
              ListenAddr ni = ListenAddrOf lstr ∧
              err = Switch_Start_err
                      (sw s ++ [SetNodeInfo ni; SetNodeKey;
                                AddListener lstr (ExternalAddress (config n))
                                  (UPNP (config n))]) ∧
              consensusState s' = Some (cs_SetPrivValidator cs (NewPrivValidator (priv n))) ∧
              sa s' = Some (sa_SetPrivValidator agent (NewPrivValidator (priv n)))
    end.
Proof.
  intros Hcs Hsa. unfold start.
  destruct (EventBus_Start_err (eventBus s)) as [e|].
  - eexists _, _. split; [reflexivity|]. by repeat split.
  - cbn. rewrite Hcs, Hsa. unfold_outcome. cbn.
    destruct (Switch_Start_err _) as [e|] eqn:Herr;
      eexists _, _; (split; [reflexivity|]); cbn;
      repeat split; try done;
      eexists; rewrite <- app_assoc; cbn; repeat split; try done.
Qed.

(** X17. [UpdateCommittee] on a registered committee returns nil and, the
    stop signal given or not, sends the driver an update signal and hands
    the member lists to the health manager. When the consensus state gives
    the stop signal the switch receives [Stop] first, and, if it was
    running, the driver is sent its exit signal and the health manager is
    stopped before that update signal and that hand-over; the node table
    is left as it was. *)
Theorem UpdateCommittee_signals_after_stop
    (n : Node) (D : CommitteeInfo.t) (id : Z) (service0 : service) (cs : ConsensusState) :
  CommitteeInfo.Id D = Some id →
  services n !! Uint64 id = Some service0 →
  consensusState service0 = Some cs →
  ∃ n' service1,
    UpdateCommittee n D = Done (n', None) ∧
    services n' !! Uint64 id = Some service1 ∧
    let '(cs', agent', stopped) := UpdateValidatorSet cs (sa service0) D in
    let halted := stopped && IsRunning (sw service0) in
    consensusState service1 = Some cs' ∧ sa service1 = agent' ∧
    nodeTable service1 = nodeTable service0 ∧
    sw service1 = sw service0 ++ (if stopped then [Switch_Stop] else []) ∧
    updateChan service1
    = updateChan service0 ++ (if halted then [false] else []) ++ [true] ∧
    healthMgr service1
    = healthMgr service0 ++ (if halted then [HealthMgr_OnStop] else [])
      ++ [UpdateFromCommittee (CommitteeInfo.Members D) (CommitteeInfo.BackMembers D)].
Proof.
  intros Hid Hlook Hcs. unfold UpdateCommittee.
  rewrite Hid. unfold_outcome. rewrite Hlook, Hcs.
  destruct (UpdateValidatorSet cs (sa service0) D) as [[cs' agent'] stopped].
  eexists _, _. split; [reflexivity|]. cbn [services with_services].
  split; [apply lookup_insert_eq|].
  destruct stopped; cbn [andb].
  - unfold stop. cbn [sw with_sa with_consensusState].
    destruct (IsRunning (sw service0)); cbn; by rewrite ?app_nil_r, <- ?app_assoc.
  - cbn. by rewrite ?app_nil_r.
Qed.
End CommandFacts.

Section FurtherRuns.
Import Toy.
#[local] Existing Instances Toy.crypto Toy.tbft Toy.net Toy.transport.

Lemma PutCommittee_health_records_witness :
  ∃ svc,
    (PutCommittee node0 committee7).2 = None ∧
    services (PutCommittee node0 committee7).1 !! Uint64 7 = Some svc ∧
    healthMgr svc
    = flat_map (λ m, if is_self node0 m then []
                     else [PutWorkHealth (health_record StateUsedFlag m)])
               (CommitteeInfo.Members committee7)
      ++ ((λ m, PutBackHealth (health_record StateUnusedFlag m))
            <$> CommitteeInfo.BackMembers committee7)
      ++ [HealthMgr_OnStart].
Proof.
  apply (PutCommittee_health_records node0 committee7 7 agent7);
    [reflexivity | discriminate | reflexivity | reflexivity].
Defined.

Lemma putNodes_first_announcement_wins_witness :
  ∃ s',
    putNodes (service_of node7 7) 7 [endpoint_a; endpoint_a_moved] = Done s' ∧
    ∀ id, nodeTable s' !! id
          = match nodeTable (service_of node7 7) !! id with
            | Some None =>
                match find (announces (GetValidator agent7) id)
                        [endpoint_a; endpoint_a_moved] with
                | Some node => Some (Some (resolved_entry 7 node id))
                | None => Some None
                end
            | o => o
            end.
Proof.
  apply (putNodes_first_announcement_wins (service_of node7 7) agent7 cons7 7
           [endpoint_a; endpoint_a_moved]);
    vm_compute; reflexivity.
Defined.

Lemma putNodes_signals_on_resolution_witness :
  ∃ s',
    putNodes (service_of node7_started 7) 7 [endpoint_b] = Done s' ∧
    updateChan s'
    = updateChan (service_of node7_started 7) ++
      (if existsb (resolves (GetValidator agent7_started)
                     (nodeTable (service_of node7_started 7))) [endpoint_b]
          && local_member agent7_started cons7_started
       then [true] else []).
Proof.
  apply (putNodes_signals_on_resolution (service_of node7_started 7)
           agent7_started cons7_started 7 [endpoint_b]);
    vm_compute; reflexivity.
Defined.

Lemma node7_all_resolved (k : p2p_ID) :
  k ∈ ["aa"; "bb"; "01"] →
  nodeTable (service_of node7_all_started 7) !! k ≠ Some None.
Proof.
  intros Hin.
  repeat (apply elem_of_cons in Hin as [->|Hin]; [vm_compute; discriminate|]).
  exfalso. exact (proj1 (elem_of_nil k) Hin).
Defined.

Lemma order7_NoDup : NoDup ["aa"; "bb"; "01"].
Proof. apply (bool_decide_unpack _). vm_compute. exact I. Defined.

Lemma updateNodes_pass_on_resolved_witness :
  ∃ s',
    updateNodes ["aa"; "bb"; "01"] (service_of node7_all_started 7) = Done s' ∧
    sw s' = sw (service_of node7_all_started 7)
            ++ dials_of (Validators cons7_started)
                 (nodeTable (service_of node7_all_started 7)) ["aa"; "bb"; "01"] ∧
    consensusState s' = Some cons7_started ∧
    (∀ k, nodeTable (service_of node7_all_started 7) !! k = None →
          nodeTable s' !! k = None) ∧
    (∀ k, k ∉ ["aa"; "bb"; "01"] →
          nodeTable s' !! k = nodeTable (service_of node7_all_started 7) !! k) ∧
    (∀ k node,
       nodeTable (service_of node7_all_started 7) !! k = Some (Some node) →
       nodeTable s' !! k = Some (Some node) ∨
       k ∈ ["aa"; "bb"; "01"] ∧ dial_due (Validators cons7_started) (Some node) = true ∧
       nodeTable s' !! k = Some (Some (connected node))) ∧
    ((∀ calls addr, Dial_err calls addr true = None) →
     ∀ k, k ∈ ["aa"; "bb"; "01"] →
          due_at (Validators cons7_started) (nodeTable s') k = false).
Proof.
  apply (updateNodes_pass_on_resolved ["aa"; "bb"; "01"]
           (service_of node7_all_started 7) cons7_started);
    [vm_compute; reflexivity | exact order7_NoDup | exact node7_all_resolved].
Defined.

Lemma updateNodes_second_pass_silent_witness :
  ∃ s1 s2,
    updateNodes ["aa"; "bb"; "01"] (service_of node7_all_started 7) = Done s1 ∧
    updateNodes ["bb"; "aa"; "01"] s1 = Done s2 ∧
    sw s2 = sw s1 ∧
    nodeTable s2 = nodeTable s1.
Proof.
  apply (updateNodes_second_pass_silent ["aa"; "bb"; "01"] ["bb"; "aa"; "01"]
           (service_of node7_all_started 7) cons7_started);
    [vm_compute; reflexivity | exact order7_NoDup | exact node7_all_resolved
    | apply perm_swap | reflexivity].
Defined.

Lemma resolved_entry_is_due_witness :
  derived_id endpoint_a = Some (Hex.EncodeToString (PubkeyToAddress key_a)) ∧
  dial_due (@GetValidator _ Toy.tbft agent7)
    (Some (resolved_entry 7 endpoint_a (Hex.EncodeToString (PubkeyToAddress key_a))))
  = HasAddress (@GetValidator _ Toy.tbft agent7) (PubkeyToAddress key_a).
Proof.
  apply (resolved_entry_is_due (@GetValidator _ Toy.tbft agent7) 7 endpoint_a key_a).
  reflexivity.
Defined.

Lemma registry_calls_are_local_witness :
  services node7_9 !! 9 = Some (service_of node7_9 9) ∧
  healthMgr (service_of node7_9 9) = [HealthMgr_OnStart] ∧
  (∀ D, CommitteeInfo.Id D = Some 7 →
        services (PutCommittee node7_9 D).1 !! 9 = services node7_9 !! 9) ∧
  (∀ nodes n' e, PutNodes node7_9 (Some 7) nodes = Done (n', e) →
                 services n' !! 9 = services node7_9 !! 9) ∧
  (∀ action n' e, Notify node7_9 7 action = Done (n', e) →
                  services n' !! 9 = services node7_9 !! 9) ∧
  (∀ D n' e, CommitteeInfo.Id D = Some 7 → UpdateCommittee node7_9 D = Done (n', e) →
             services n' !! 9 = services node7_9 !! 9) ∧
  (∀ h n' e, SetCommitteeStop node7_9 7 h = Done (n', e) →
             services n' !! 9 = services node7_9 !! 9).
Proof.
  split; [apply service_of_registered; vm_compute; reflexivity|].
  split; [vm_compute; reflexivity|].
  apply (registry_calls_are_local node7_9 7 9). vm_compute. discriminate.
Defined.

Lemma PutCommittee_then_Stop_witness :
  ∃ n2,
    Notify (PutCommittee node0 committee7).1 7 Stop = Done (n2, None) ∧
    services n2 = services node0 ∧
    Notify n2 7 Stop = Done (n2, None) ∧
    (PutCommittee n2 committee7).2 = None ∧
    is_Some (services (PutCommittee n2 committee7).1 !! Uint64 7).
Proof.
  apply (PutCommittee_then_Stop node0 committee7 7 agent7);
    [reflexivity | discriminate | reflexivity | reflexivity].
Defined.

Lemma GetCommitteeStatus_sections_witness :
  ∃ result,
    GetCommitteeStatus node7 7 = Done result ∧
    result !! "committee_now"
    = (λ s, CommitteeView (Uint64 7) (nodeTable s) (Some (size (nodeTable s))))
        <$> services node7 !! Uint64 7 ∧
    result !! "committee_next"
    = (λ s1, CommitteeView (add64 (Uint64 7) 1) (nodeTable s1) None)
        <$> services node7 !! add64 (Uint64 7) 1 ∧
    (is_Some (result !! "nodeStatus") ↔ is_Some (services node7 !! Uint64 7)).
Proof.
  apply (GetCommitteeStatus_sections node7 7).
  intros s Hs.
  rewrite (service_of_registered node7 (Uint64 7)) in Hs by (vm_compute; reflexivity).
  injection Hs as <-. exists cons7. vm_compute. reflexivity.
Defined.

Lemma unknown_committee_is_reported_witness :
  (∀ nodes, nodes ≠ [] →
     PutNodes node0 (Some 7) nodes
     = Done (node0, errors_New ("wrong ID:" +:+ big_String 7))) ∧
  (∀ D, CommitteeInfo.Id D = Some 7 →
     UpdateCommittee node0 D = Done (node0, errors_New "service not found")) ∧
  (∀ h, SetCommitteeStop node0 7 h
        = Done (node0, errors_New ("wrong conmmitt ID:" +:+ big_String 7))) ∧
  Notify node0 7 Switch = Done (node0, None) ∧
  (∀ nodes, PutNodes node0 None nodes = Done (node0, errors_New "wrong params")) ∧
  (∀ id', PutNodes node0 id' [] = Done (node0, errors_New "wrong params")).
Proof.
  apply (unknown_committee_is_reported node0 7). reflexivity.
Defined.

Lemma PutCommittee_then_PutNodes_witness :
  ∃ n2 svc2,
    PutNodes (PutCommittee node0 committee7).1 (Some 7) [endpoint_a] = Done (n2, None) ∧
    services n2 !! Uint64 7 = Some svc2 ∧
    nodeTable svc2 !! member_id (member key_a)
    = Some (Some (resolved_entry 7 endpoint_a (member_id (member key_a)))) ∧
    (∀ k, k ≠ member_id (member key_a) →
       nodeTable svc2 !! k
       = if decide (k ∈ member_id <$> CommitteeInfo.Members committee7)
         then Some None else None).
Proof.
  apply (PutCommittee_then_PutNodes node0 committee7 7 agent7 (member key_a)
           endpoint_a key_a);
    [reflexivity | discriminate | reflexivity | reflexivity
    | apply list_elem_of_further, list_elem_of_here
    | reflexivity | reflexivity | vm_compute; reflexivity].
Defined.

Lemma start_launches_driver_on_success_witness :
  ∃ s' err,
    start (service_of node7_a 7) 7 node7_a = Done (s', err) ∧
    drivers s' = (if err is None then S (drivers (service_of node7_a 7))
                  else drivers (service_of node7_a 7)) ∧
    nodeTable s' = nodeTable (service_of node7_a 7) ∧
    updateChan s' = updateChan (service_of node7_a 7) ∧
    healthMgr s' = healthMgr (service_of node7_a 7) ∧
    eventBus s' = eventBus (service_of node7_a 7) ++ [EventBus_Start] ∧
    match EventBus_Start_err (eventBus (service_of node7_a 7)) with
    | Some e =>
        err = Some e ∧ sw s' = sw (service_of node7_a 7) ∧
        addrBook s' = addrBook (service_of node7_a 7) ∧
        consensusState s' = Some cons7 ∧ sa s' = Some agent7
    | None =>
        let lstr := if even_cid 7 then ListenAddress1 (config node7_a)
                    else ListenAddress2 (config node7_a) in
        ∃ ni, sw s' = sw (service_of node7_a 7)
                      ++ [SetNodeInfo ni; SetNodeKey;
                          AddListener lstr (ExternalAddress (config node7_a))
                            (UPNP (config node7_a));
                          Switch_Start] ∧
              ListenAddr ni = ListenAddrOf lstr ∧
              err = Switch_Start_err
                      (sw (service_of node7_a 7)
                       ++ [SetNodeInfo ni; SetNodeKey;
                           AddListener lstr (ExternalAddress (config node7_a))
                             (UPNP (config node7_a))]) ∧
              consensusState s'
              = Some (cs_SetPrivValidator cons7 (NewPrivValidator (priv node7_a))) ∧
              sa s' = Some (sa_SetPrivValidator agent7 (NewPrivValidator (priv node7_a)))
    end.
Proof.
  apply (start_launches_driver_on_success (service_of node7_a 7) 7 node7_a cons7 agent7);
    vm_compute; reflexivity.
Defined.

Lemma UpdateCommittee_signals_after_stop_witness :
  ∃ n' service1,
    UpdateCommittee node7_started committee7_without_self = Done (n', None) ∧
    services n' !! Uint64 7 = Some service1 ∧
    let '(cs', agent', stopped) :=
      UpdateValidatorSet cons7_started (sa (service_of node7_started 7))
        committee7_without_self in
    let halted := stopped && IsRunning (sw (service_of node7_started 7)) in
    consensusState service1 = Some cs' ∧ sa service1 = agent' ∧
    nodeTable service1 = nodeTable (service_of node7_started 7) ∧
    sw service1 = sw (service_of node7_started 7)
                  ++ (if stopped then [Switch_Stop] else []) ∧
    updateChan service1
    = updateChan (service_of node7_started 7)
      ++ (if halted then [false] else []) ++ [true] ∧
    healthMgr service1
    = healthMgr (service_of node7_started 7)
      ++ (if halted then [HealthMgr_OnStop] else [])
      ++ [UpdateFromCommittee (CommitteeInfo.Members committee7_without_self)
            (CommitteeInfo.BackMembers committee7_without_self)].
Proof.
  apply (UpdateCommittee_signals_after_stop node7_started committee7_without_self 7
           (service_of node7_started 7) cons7_started);
    [reflexivity
    | apply service_of_registered; vm_compute; reflexivity
    | vm_compute; reflexivity].
Defined.
End FurtherRuns.
